(** * display-structure: table layout and enum wrapping

    A shallow embedding of [display-structure.py] (the MySQL "SHOW COLUMNS"
    pretty printer) and the properties of its parser, enum wrapper, width
    planner and renderer.

    Conventions of the embedding.
    - A Python [str] is a [string]: a sequence of characters with code
      points below 256.  [len] is the number of characters.
    - Python integers are unbounded: widths and lengths are in [Z]; list
      positions are in [nat].
    - A Python list is a [list]; an index read [l[i]] is the stdpp lookup
      [l !! i], and [None] there is Python's [IndexError].
    - The [-1] sentinel of [type_col_index] is [None : option nat].
    - The tables handed around ([headers], [data], [column_widths]) are
      mutable Python lists; [print_formatted_table] changes two of them in
      place, so it is modelled as a function on the store [table]. *)

From Stdlib Require Import ZArith Lia Ascii.
From stdpp Require Import base list strings gmap.

Local Open Scope Z_scope.

(** ** Python string primitives *)

Module Py.

(** [len(s)] *)
Definition len (s : string) : Z := Z.of_nat (String.length s).

(** [s.startswith(p)] *)
Definition startswith (s p : string) : bool := String.prefix p s.

(** [p in s] for strings: [p] occurs at some position of [s]. *)
Fixpoint contains (p s : string) : bool :=
  String.prefix p s ||
  match s with
  | EmptyString => false
  | String _ s' => contains p s'
  end.

(** [s.split(sep)] for a one-character separator: never returns the empty
    list, [''.split(sep)] is [['']]. *)
Fixpoint split (sep : ascii) (s : string) : list string :=
  match s with
  | EmptyString => [EmptyString]
  | String c s' =>
      if Ascii.eqb c sep then EmptyString :: split sep s'
      else match split sep s' with
           | [] => [String c EmptyString]
           | f :: fs => String c f :: fs
           end
  end.

(** [c.isspace()] on the code points below 256: TAB, LF, VT, FF, CR,
    FS, GS, RS, US, SPACE, NEL (0x85) and NBSP (0xA0). *)
Definition isspace (c : ascii) : bool :=
  let n := nat_of_ascii c in
  ((9 <=? n)%nat && (n <=? 13)%nat) || ((28 <=? n)%nat && (n <=? 32)%nat)
  || (n =? 133)%nat || (n =? 160)%nat.

(** [s.lstrip()], [s.rstrip()], [s.strip()] *)
Fixpoint lstrip (s : string) : string :=
  match s with
  | EmptyString => EmptyString
  | String c s' => if isspace c then lstrip s' else s
  end.

Fixpoint rstrip (s : string) : string :=
  match s with
  | EmptyString => EmptyString
  | String c s' =>
      match rstrip s' with
      | EmptyString => if isspace c then EmptyString else String c EmptyString
      | r => String c r
      end
  end.

Definition strip (s : string) : string := rstrip (lstrip s).

(** [c.lower()] on the code points below 256: the ASCII capitals and the
    Latin-1 capitals 0xC0..0xDE except the multiplication sign 0xD7. *)
Definition lower_char (c : ascii) : ascii :=
  let n := nat_of_ascii c in
  if ((65 <=? n)%nat && (n <=? 90)%nat)
     || ((192 <=? n)%nat && (n <=? 222)%nat && negb (n =? 215)%nat)
  then ascii_of_nat (n + 32) else c.

Fixpoint lower (s : string) : string :=
  match s with
  | EmptyString => EmptyString
  | String c s' => String (lower_char c) (lower s')
  end.

(** [l[1:-1]]: the list without its first and its last element. *)
Definition slice_1_m1 {A} (l : list A) : list A := removelast (tail l).

(** [s * n] for a string and an integer; empty when [n <= 0]. *)
Fixpoint repeat_nat (s : string) (n : nat) : string :=
  match n with
  | O => EmptyString
  | S n' => s +:+ repeat_nat s n'
  end.

Definition mul (s : string) (n : Z) : string := repeat_nat s (Z.to_nat n).

(** [s.ljust(w)]: pads with spaces on the right up to [w] characters. *)
Definition ljust (s : string) (w : Z) : string := s +:+ mul " " (w - len s).

(** [s.endswith(",")] *)
Fixpoint endswith_comma (s : string) : bool :=
  match s with
  | EmptyString => false
  | String c EmptyString => Ascii.eqb c ","%char
  | String _ s' => endswith_comma s'
  end.

(** [s[:-1]] *)
Fixpoint but_last (s : string) : string :=
  match s with
  | EmptyString => EmptyString
  | String _ EmptyString => EmptyString
  | String c s' => String c (but_last s')
  end.

(** [x in l] for a list of strings. *)
Definition mem (x : string) (l : list string) : bool :=
  existsb (String.eqb x) l.

(** [enumerate(l)] *)
Definition enumerate {A} (l : list A) : list (nat * A) :=
  zip (seq 0 (length l)) l.

(** [range(a, b)] *)
Definition range (a b : nat) : list nat := seq a (b - a).

(** [max(l, default=0)] *)
Definition max_default0 (l : list Z) : Z :=
  match l with
  | [] => 0
  | x :: xs => foldl Z.max x xs
  end.

(** [re.findall(r"'[^']*'", s)]: the leftmost non-overlapping matches, each
    an opening quote, the characters up to the next quote, and that quote.
    [findall_from open s] scans [s]; [open] is [Some m] while a match that
    has consumed [m] so far is under way.  An opening quote that is never
    closed matches nothing. *)
Fixpoint findall_from (open : option string) (s : string) : list string :=
  match s with
  | EmptyString => []
  | String c s' =>
      match open with
      | None =>
          if Ascii.eqb c "'"%char then findall_from (Some "'") s'
          else findall_from None s'
      | Some m =>
          if Ascii.eqb c "'"%char then (m +:+ "'") :: findall_from None s'
          else findall_from (Some (m +:+ String c EmptyString)) s'
      end
  end.

Definition findall_quoted (s : string) : list string := findall_from None s.

(** The characters of [s] before its first line feed ([.] in a Python
    regular expression does not match a line feed). *)
Fixpoint upto_newline (s : string) : string :=
  match s with
  | EmptyString => EmptyString
  | String c s' =>
      if Ascii.eqb c "010"%char then EmptyString else String c (upto_newline s')
  end.

(** The greedy group of the pattern followed by its literal close
    parenthesis, on a text free of line feeds: the longest prefix that is
    followed by a close parenthesis, if there is one. *)
Fixpoint before_last_rparen (s : string) : option string :=
  match s with
  | EmptyString => None
  | String c s' =>
      match before_last_rparen s' with
      | Some r => Some (String c r)
      | None => if Ascii.eqb c ")"%char then Some EmptyString else None
      end
  end.

(** [s[n:]] *)
Fixpoint drop_chars (n : nat) (s : string) : string :=
  match n, s with
  | O, _ => s
  | S n', String _ s' => drop_chars n' s'
  | S _, EmptyString => EmptyString
  end.

(** An attempt to match the pattern of [get_enum_values] at the start of
    [s]: the literal [enum(], a greedy group of characters other than line
    feeds, the literal close parenthesis.  The result is the group. *)
Definition match_enum_here (s : string) : option string :=
  if String.prefix "enum(" s
  then before_last_rparen (upto_newline (drop_chars 5 s))
  else None.

(** [re.search] for that pattern: the match at the leftmost position where
    one exists; the result is group 1. *)
Fixpoint search_enum (s : string) : option string :=
  match match_enum_here s with
  | Some g => Some g
  | None =>
      match s with
      | EmptyString => None
      | String _ s' => search_enum s'
      end
  end.

End Py.

(** ** ANSI colour codes (class [Colors]) *)

Module Colors.
Definition ESC : string := String "027"%char EmptyString.
Definition RESET : string := ESC +:+ "[0m".
Definition BOLD : string := ESC +:+ "[1m".
Definition RED : string := ESC +:+ "[31m".
Definition GREEN : string := ESC +:+ "[32m".
Definition YELLOW : string := ESC +:+ "[33m".
Definition BLUE : string := ESC +:+ "[34m".
Definition MAGENTA : string := ESC +:+ "[35m".
Definition CYAN : string := ESC +:+ "[36m".
End Colors.

(** ** parse_mysql_table *)

Definition TAB : string := String "009"%char EmptyString.

(** [[c.strip() for c in line.split('|')[1:-1]]] *)
Definition pipe_cells (line : string) : list string :=
  map Py.strip (Py.slice_1_m1 (Py.split "|"%char line)).

(** The [for i, line in enumerate(lines)] search for the header line, with
    its [break]. *)
Fixpoint find_header_from (i : nat) (lines : list string) : option nat :=
  match lines with
  | [] => None
  | line :: rest =>
      if Py.startswith line "| Field" then Some i
      else find_header_from (S i) rest
  end.

Definition find_header_line (lines : list string) : option nat :=
  find_header_from 0 lines.

(** The tab-delimited branch: the rows appended for [i] in
    [range(1, len(lines))]. *)
Definition tab_data (lines : list string) : list (list string) :=
  foldl (fun data i =>
           let line := default EmptyString (lines !! i) in
           if bool_decide (Py.strip line = EmptyString) then data
           else data ++ [Py.split "009"%char line])
        [] (Py.range 1 (length lines)).

(** The pipe branch: the rows appended for [i] in
    [range(header_line + 2, len(lines))]. *)
Definition pipe_data (header_line : nat) (lines : list string)
  : list (list string) :=
  foldl (fun data i =>
           let line := default EmptyString (lines !! i) in
           if Py.startswith line "+--" then data
           else if bool_decide (Py.strip line = EmptyString) then data
           else data ++ [pipe_cells line])
        [] (Py.range (header_line + 2) (length lines)).

(** The first half of [parse_mysql_table]: headers and rows before any
    column filter.  [None] is the early [return [], [], []]. *)
Definition read_table (lines : list string)
  : option (list string * list (list string)) :=
  match lines with
  | [] => None
  | first :: _ =>
      if Py.contains TAB first
      then Some (Py.split "009"%char first, tab_data lines)
      else match find_header_line lines with
           | None => None
           | Some h =>
               Some (pipe_cells (default EmptyString (lines !! h)),
                     pipe_data h lines)
           end
  end.

(** The [if filter_columns:] block.  The two accumulators are
    [selected_indices] and [selected_headers]. *)
Definition select_columns (headers filter_columns : list string)
  : list nat * list string :=
  foldl (fun acc ih =>
           if Py.mem ih.2 filter_columns
           then (acc.1 ++ [ih.1], acc.2 ++ [ih.2])
           else acc)
        ([], []) (Py.enumerate headers).

(** [[row[i] for i in selected_indices if i < len(row)]] *)
Definition filter_row (selected_indices : list nat) (row : list string)
  : list string :=
  omap (fun i => if bool_decide (i < length row)%nat then row !! i else None)
       selected_indices.

Definition filter_data (selected_indices : list nat)
    (data : list (list string)) : list (list string) :=
  foldl (fun filtered_data row =>
           filtered_data ++ [filter_row selected_indices row])
        [] data.

(** A Python value is "truthy" unless it is [None] or empty. *)
Definition truthy {A} (x : option (list A)) : bool :=
  match x with
  | Some (_ :: _) => true
  | _ => false
  end.

Definition apply_filter (filter_columns : option (list string))
    (headers : list string) (data : list (list string))
  : list string * list (list string) :=
  if truthy filter_columns then
    let sel := select_columns headers (default [] filter_columns) in
    (sel.2, filter_data sel.1 data)
  else (headers, data).

(** What one cell adds to the running [max_width] of its column. *)
Definition widen (max_width : Z) (cell : string) : Z :=
  if Py.contains "enum(" cell then
    let enum_values := Py.findall_quoted cell in
    let longest_enum := Py.max_default0 (map Py.len enum_values) in
    let enum_prefix_len := Py.len "enum(" in
    Z.max max_width (longest_enum + enum_prefix_len + 1)
  else Z.max max_width (Py.len cell).

(** The inner [for row in data] loop for column [i]. *)
Definition column_width (i : nat) (header : string)
    (data : list (list string)) : Z :=
  foldl (fun max_width row =>
           match row !! i with
           | Some cell => widen max_width cell
           | None => max_width
           end)
        (Py.len header) data.

(** The outer [for i, header in enumerate(headers)] loop. *)
Definition initial_widths (headers : list string)
    (data : list (list string)) : list Z :=
  foldl (fun column_widths ih =>
           column_widths ++ [column_width ih.1 ih.2 data])
        [] (Py.enumerate headers).

Definition parse_mysql_table (lines : list string)
    (filter_columns : option (list string))
  : list string * list (list string) * list Z :=
  match read_table lines with
  | None => ([], [], [])
  | Some (headers0, data0) =>
      let '(headers, data) := apply_filter filter_columns headers0 data0 in
      (headers, data, initial_widths headers data)
  end.

(** The input of the end-to-end example. *)
Definition example_lines : list string :=
  [ "+---+------+"; "| Field | Type |"; "+---+------+";
    "| id | int(11) |"; "+---+------+" ].


(** ** get_enum_values and format_enum *)

Definition get_enum_values (enum_str : string) : list string :=
  match Py.search_enum enum_str with
  | None => []
  | Some enum_content => Py.findall_quoted enum_content
  end.

(** The value handled in iteration [i] of the packing loop: [enum_values[i]]
    with a comma appended unless it is the last one. *)
Definition packed_value (enum_values : list string) (i : nat) : string :=
  let val := default EmptyString (enum_values !! i) in
  if bool_decide (Z.of_nat i < Z.of_nat (length enum_values) - 1)
  then val +:+ "," else val.

(** One iteration of [for i in range(1, len(enum_values))]; the state is
    [(lines, current_line)]. *)
Definition pack_step (enum_values : list string) (column_width : Z)
    (st : list string * string) (i : nat) : list string * string :=
  let val := packed_value enum_values i in
  match st.2 with
  | EmptyString => (st.1, val)
  | current_line =>
      if bool_decide (column_width < Py.len (current_line +:+ " " +:+ val))
      then (st.1 ++ [current_line], val)
      else (st.1, current_line +:+ " " +:+ val)
  end.

(** The closing parenthesis put on [lines[-1]]. *)
Definition close_last (lines : list string) : list string :=
  match lines with
  | [] => []
  | _ =>
      let l := List.last lines EmptyString in
      removelast lines ++
        [if Py.endswith_comma l then Py.but_last l +:+ ")" else l +:+ ")"]
  end.

Definition format_enum (enum_str : string) (column_width : Z) : list string :=
  let enum_values := get_enum_values enum_str in
  match enum_values with
  | [] => [enum_str]
  | v0 :: _ =>
      let first_line :=
        if bool_decide (1 < length enum_values)%nat
        then "enum(" +:+ v0 +:+ "," else "enum(" +:+ v0 in
      let st := foldl (pack_step enum_values column_width)
                      ([first_line], EmptyString)
                      (Py.range 1 (length enum_values)) in
      let lines :=
        match st.2 with
        | EmptyString => st.1
        | current_line => st.1 ++ [current_line]
        end in
      close_last lines
  end.


(** ** colorize_cell *)

Definition paint (codes cell : string) : string :=
  codes +:+ cell +:+ Colors.RESET.

Definition colorize_cell (cell header : string) (colorize : bool) : string :=
  if negb colorize then cell
  else
    let h := Py.lower header in
    let c := Py.lower cell in
    if String.eqb h "key" then
      if String.eqb cell "PRI" then paint (Colors.BOLD +:+ Colors.RED) cell
      else if String.eqb cell "UNI"
           then paint (Colors.BOLD +:+ Colors.BLUE) cell
      else if String.eqb cell "MUL"
           then paint (Colors.BOLD +:+ Colors.GREEN) cell
      else cell
    else if String.eqb h "null" then
      if String.eqb cell "NO" then paint (Colors.BOLD +:+ Colors.RED) cell
      else if String.eqb cell "YES" then paint Colors.GREEN cell
      else cell
    else if String.eqb h "type" then
      if Py.contains "int" c then paint Colors.CYAN cell
      else if Py.contains "char" c || Py.contains "text" c
           then paint Colors.GREEN cell
      else if Py.contains "date" c || Py.contains "time" c
           then paint Colors.YELLOW cell
      else if Py.contains "enum" c then paint Colors.MAGENTA cell
      else cell
    else if String.eqb h "extra" then
      if Py.contains "auto_increment" c
      then paint (Colors.BOLD +:+ Colors.YELLOW) cell
      else cell
    else cell.

(** ** print_formatted_table *)

(** The three lists the renderer receives.  Python passes them by
    reference; the renderer assigns into [column_widths] and appends to the
    rows of [data], and its caller sees both. *)
Record table := Table {
  headers : list string;
  data : list (list string);
  column_widths : list Z
}.

(** The search for the ['type'] header, with its [break]. *)
Fixpoint find_type_from (i : nat) (hs : list string) : option nat :=
  match hs with
  | [] => None
  | header :: rest =>
      if String.eqb (Py.lower header) "type" then Some i
      else find_type_from (S i) rest
  end.

Definition type_col_index (hs : list string) : option nat :=
  match find_type_from 0 hs with
  | Some i => Some i
  | None => if bool_decide (1 < length hs)%nat then Some 1%nat else None
  end.

(** [sum(l)] *)
Definition sum (l : list Z) : Z := foldl Z.add 0 l.

(** The [if type_col_index != -1:] block; [None] is the [IndexError] of
    [column_widths[type_col_index]]. *)
Definition adjust_widths (term_width : Z) (type_col : option nat)
    (cw : list Z) : option (list Z) :=
  match type_col with
  | None => Some cw
  | Some t =>
      w ← cw !! t;
      let non_type_width := sum cw - w in
      let non_type_width :=
        non_type_width + (Z.of_nat (length cw) - 1) * 3 + 4 in
      let available_width := term_width - non_type_width in
      let type_width := Z.max w (Z.min available_width 50) in
      Some (<[t := type_width]> cw)
  end.

(** The bullet of the statistics lines, as its three UTF-8 code units. *)
Definition BULLET : string :=
  String "226"%char (String "128"%char (String "162"%char EmptyString)).

(** [stats.get(key, 'N/A')] *)
Definition stats_get (stats : gmap string string) (key : string) : string :=
  default "N/A" (stats !! key).

(** The lines of the [if stats:] block; an absent or empty mapping prints
    nothing. *)
Definition stats_block (stats : option (gmap string string))
    (colorize : bool) : list string :=
  match stats with
  | None => []
  | Some m =>
      if bool_decide (m = ∅) then []
      else if colorize then
        [ Colors.BOLD +:+ "Table Statistics:" +:+ Colors.RESET;
          BULLET +:+ " Row Count: " +:+ Colors.CYAN
            +:+ stats_get m "row_count" +:+ Colors.RESET;
          BULLET +:+ " Size: " +:+ Colors.CYAN
            +:+ stats_get m "size_mb" +:+ " MB" +:+ Colors.RESET;
          BULLET +:+ " Index Count: " +:+ Colors.CYAN
            +:+ stats_get m "index_count" +:+ Colors.RESET;
          EmptyString ]
      else
        [ "Table Statistics:";
          BULLET +:+ " Row Count: " +:+ stats_get m "row_count";
          BULLET +:+ " Size: " +:+ stats_get m "size_mb" +:+ " MB";
          BULLET +:+ " Index Count: " +:+ stats_get m "index_count";
          EmptyString ]
  end.

Definition separator (cw : list Z) : string :=
  foldl (fun sep width => sep +:+ Py.mul "-" (width + 2) +:+ "+") "+" cw.

(** A left-justified cell: a space, the text, a space, the padding up to
    the column width, the bar. *)
Definition cell_text (display : string) (visible_len width : Z) : string :=
  " " +:+ Py.ljust display visible_len +:+ " "
      +:+ Py.mul " " (width - visible_len) +:+ "|".

Definition header_line (hs : list string) (cw : list Z) (colorize : bool)
  : option string :=
  foldl (fun acc ih =>
           line ← acc;
           width ← cw !! ih.1;
           let header_display :=
             if colorize then Colors.BOLD +:+ ih.2 +:+ Colors.RESET
             else ih.2 in
           Some (line +:+ cell_text header_display (Py.len ih.2) width))
        (Some "|") (Py.enumerate hs).

(** [while len(row) < len(headers): row.append('')], by recursion on the
    number of iterations left; [n] of them are enough. *)
Fixpoint pad_loop (fuel n : nat) (row : list string) : list string :=
  match fuel with
  | O => row
  | S fuel' =>
      if bool_decide (length row < n)%nat
      then pad_loop fuel' n (row ++ [EmptyString])
      else row
  end.

Definition pad_row (n : nat) (row : list string) : list string :=
  pad_loop n n row.

(** The row printed on one line ([if not has_enum]). *)
Definition normal_row_line (hs : list string) (cw : list Z)
    (colorize : bool) (row : list string) : option string :=
  foldl (fun acc ic =>
           line ← acc;
           if bool_decide (ic.1 < length cw)%nat then
             header ← hs !! ic.1;
             width ← cw !! ic.1;
             let colored_cell := colorize_cell ic.2 header colorize in
             Some (line +:+ cell_text colored_cell (Py.len ic.2) width)
           else Some line)
        (Some "|") (Py.enumerate row).

(** Physical line [j] of a row whose cell [enum_col] is wrapped into
    [enum_lines]. *)
Definition enum_row_line (hs : list string) (cw : list Z) (colorize : bool)
    (row : list string) (enum_col : nat) (n_lines : nat)
    (j : nat) (enum_line : string) : option string :=
  foldl (fun acc ic =>
           line ← acc;
           if bool_decide (ic.1 < length cw)%nat then
             if bool_decide (ic.1 = enum_col) then
               width ← cw !! ic.1;
               let colored_enum :=
                 if colorize
                 then Colors.MAGENTA +:+ enum_line +:+ Colors.RESET
                 else enum_line in
               if bool_decide (Z.of_nat j = Z.of_nat n_lines - 1) then
                 let filler_space := width - Py.len enum_line in
                 Some (line +:+ " " +:+ colored_enum
                            +:+ Py.mul " " filler_space +:+ " |")
               else
                 Some (line +:+
                         cell_text colored_enum (Py.len enum_line) width)
             else if bool_decide (j = 0)%nat then
               header ← hs !! ic.1;
               width ← cw !! ic.1;
               let colored_cell := colorize_cell ic.2 header colorize in
               Some (line +:+ cell_text colored_cell (Py.len ic.2) width)
             else
               width ← cw !! ic.1;
               Some (line +:+ " " +:+ Py.ljust " " width +:+ " |")
           else Some line)
        (Some "|") (Py.enumerate row).

(** The wrapped lines of a row, when its type cell is an enum declaration
    of more than 40 characters ([has_enum], [enum_col], [enum_lines]).  The
    read [column_widths[type_col_index]] cannot raise here: the same read
    has succeeded in the width adjustment. *)
Definition row_enum_lines (type_col : option nat) (cw : list Z)
    (row : list string) : option (nat * list string) :=
  t ← type_col;
  cell ← row !! t;
  if Py.contains "enum(" cell && bool_decide (40 < Py.len cell) then
    Some (t, format_enum cell (default 0 (cw !! t)))
  else None.

(** The lines printed for one (already padded) row. *)
Definition row_lines (hs : list string) (cw : list Z) (colorize : bool)
    (type_col : option nat) (row : list string) : option (list string) :=
  match row_enum_lines type_col cw row with
  | None => line ← normal_row_line hs cw colorize row; Some [line]
  | Some (enum_col, enum_lines) =>
      foldl (fun acc je =>
               out ← acc;
               line ← enum_row_line hs cw colorize row enum_col
                        (length enum_lines) je.1 je.2;
               Some (out ++ [line]))
            (Some []) (Py.enumerate enum_lines)
  end.

(** The [for row in data] loop: the state is the lines printed so far and
    the rows as the loop leaves them. *)
Definition print_rows (hs : list string) (cw : list Z) (colorize : bool)
    (type_col : option nat) (rows : list (list string))
  : option (list string * list (list string)) :=
  foldl (fun acc row =>
           st ← acc;
           let row' := pad_row (length hs) row in
           ls ← row_lines hs cw colorize type_col row';
           Some (st.1 ++ ls, st.2 ++ [row']))
        (Some ([], [])) rows.

(** [print_formatted_table]: the printed lines and the store as the call
    leaves it, or [None] when an index read raises.  [term_width] is the
    result of [get_terminal_width()]. *)
Definition print_formatted_table (term_width : Z) (t : table)
    (stats : option (gmap string string)) (colorize : bool)
  : option (list string * table) :=
  let type_col := type_col_index (headers t) in
  cw ← adjust_widths term_width type_col (column_widths t);
  let out := stats_block stats colorize in
  let sep := separator cw in
  let out := out ++ [sep] in
  hl ← header_line (headers t) cw colorize;
  let out := out ++ [hl] in
  let out := out ++ [sep] in
  body ← print_rows (headers t) cw colorize type_col (data t);
  let out := out ++ body.1 in
  let out := out ++ [sep] in
  Some (out, Table (headers t) body.2 cw).

(** The table the example parses to. *)
Definition example_table : table :=
  Table ["Field"; "Type"] [["id"; "int(11)"]] [5; 7].

(** ** The properties as the specification words them *)

(** A line of the pipe format that carries a row: not a ["+--"] border and
    not blank. *)
Definition data_line (line : string) : bool :=
  negb (Py.startswith line "+--")
  && negb (bool_decide (Py.strip line = EmptyString)).

(** The rows of the pipe format as the specification describes them: every
    data line after the header line. *)
Definition rows_after_header (header_line : nat) (lines : list string)
  : list (list string) :=
  map pipe_cells (List.filter data_line (drop (S header_line) lines)).

(** The positions, counted from [a], of the elements of [hs] that satisfy
    [p]. *)
Fixpoint positions (p : string → bool) (a : nat) (hs : list string)
  : list nat :=
  match hs with
  | [] => []
  | h :: rest =>
      if p h then a :: positions p (S a) rest else positions p (S a) rest
  end.

(** The cells of [row] whose position carries, in [headers0], a name of
    [keep]. *)
Definition kept_cells (headers0 keep : list string) (row : list string)
  : list string :=
  map snd
    (List.filter
       (fun ic => match headers0 !! ic.1 with
                  | Some h => Py.mem h keep
                  | None => false
                  end)
       (Py.enumerate row)).

(** The width one cell asks for: its length, or for a cell that holds an
    enum declaration the length of its longest quoted value plus the length
    of ["enum("] plus one. *)
Definition cell_width (cell : string) : Z :=
  if Py.contains "enum(" cell
  then Py.max_default0 (map Py.len (Py.findall_quoted cell))
       + Py.len "enum(" + 1
  else Py.len cell.

(** The cells of column [i], one for each row that reaches it. *)
Definition column_cells (i : nat) (rows : list (list string)) : list string :=
  omap (fun row : list string => row !! i) rows.

(** [w] is the greatest element of [l]. *)
Definition is_maximum (w : Z) (l : list Z) : Prop :=
  In w l ∧ ∀ x, In x l → x ≤ w.

(** A table with an enum column. *)
Definition enum_lines : list string :=
  [ "| Field | Type |"; "+--+--+"; "| id | int(11) |";
    "| state | enum('on','standby','off') |" ].

(** The flexible column as the specification designates it: the first
    header equal to ["type"] whatever the case of its letters, or else the
    second column when there is one. *)
Definition flex_column (hs : list string) (t : nat) : Prop :=
  (∃ h, hs !! t = Some h ∧ Py.lower h = "type"
        ∧ ∀ j h', (j < t)%nat → hs !! j = Some h' → Py.lower h' ≠ "type")
  ∨ ((∀ j h', hs !! j = Some h' → Py.lower h' ≠ "type")
     ∧ (1 < length hs)%nat ∧ t = 1%nat).

(** [3*(columnCount-1) + 4] added to the widths of the other columns. *)
Definition non_flexible_width (cw : list Z) (flex : Z) : Z :=
  sum cw - flex + 3 * (Z.of_nat (length cw) - 1) + 4.

(** [c] occurs in [s]. *)
Fixpoint has_char (c : ascii) (s : string) : bool :=
  match s with
  | EmptyString => false
  | String c' s' => Ascii.eqb c' c || has_char c s'
  end.

(** [s] holds no single quote. *)
Definition quote_free (s : string) : Prop := has_char "'" s = false.

(** [s] holds no line feed. *)
Definition one_line (s : string) : Prop := has_char "010" s = false.

(** The text before the close parenthesis that balances an already open
    one; [depth] counts the parentheses opened since. *)
Fixpoint before_matching_close (depth : nat) (s : string) : option string :=
  match s with
  | EmptyString => None
  | String c s' =>
      if Ascii.eqb c ")"%char then
        match depth with
        | O => Some EmptyString
        | S d => String c <$> before_matching_close d s'
        end
      else if Ascii.eqb c "("%char
           then String c <$> before_matching_close (S depth) s'
      else String c <$> before_matching_close depth s'
  end.

(** The text after the first ["enum("]. *)
Fixpoint after_first_enum (s : string) : option string :=
  if String.prefix "enum(" s then Some (Py.drop_chars 5 s)
  else match s with
       | EmptyString => None
       | String _ s' => after_first_enum s'
       end.

(** The extraction as the specification words it: the quoted substrings of
    the content between the first ["enum("] and the close parenthesis that
    matches its open one. *)
Definition values_upto_matching_close (declaration : string) : list string :=
  match after_first_enum declaration ≫= before_matching_close 0 with
  | None => []
  | Some content => Py.findall_quoted content
  end.

(** No attempt succeeds at a position whose line has no close parenthesis
    after the ["enum("]. *)
Definition no_match_before (s pre : string) : Prop :=
  ∀ pre' body',
    s = pre' +:+ "enum(" +:+ body' →
    (String.length pre' < String.length pre)%nat →
    has_char ")" (Py.upto_newline body') = false.

(** [s] ends with [suffix]. *)
Definition ends_with (s suffix : string) : Prop := ∃ p, s = p +:+ suffix.

(** A line fits when it is at most [w] characters long or is one packed
    value on its own. *)
Definition fits (enum_values : list string) (w : Z) (line : string) : Prop :=
  Py.len line ≤ w ∨ ∃ i, line = packed_value enum_values i.

(** Appends are not unfolded by [simpl]; this does it where the left
    operand starts with known characters. *)
Ltac push_append :=
  repeat match goal with
         | |- context [String ?c ?a +:+ ?b] =>
             change (String c a +:+ b) with (String c (a +:+ b))
         | |- context [EmptyString +:+ ?b] =>
             change (EmptyString +:+ b) with b
         end;
  simpl.

(** ** get_cache_key *)

(** [sep.join(l)] *)
Definition join (sep : string) (l : list string) : string :=
  String.concat sep l.

(** [columns] is [None] or a list; both [None] and the empty list take the
    ["all"] branch. *)
Definition get_cache_key (database table : string)
    (columns : option (list string)) (format_type : string) : string :=
  let column_str :=
    if truthy columns then join "_" (default [] columns) else "all" in
  database +:+ "_" +:+ table +:+ "_" +:+ column_str +:+ "_" +:+ format_type.

(** ** export_json *)

(** The dictionary built for one row: [row_dict[header] = row[i]] when the
    row reaches position [i], the empty string otherwise.  A later header
    of the same name overwrites an earlier one. *)
Definition row_dict (hs : list string) (row : list string)
  : gmap string string :=
  foldl (fun d ih => <[ih.2 := default EmptyString (row !! ih.1)]> d)
        ∅ (Py.enumerate hs).

(** The list [result] that [export_json] hands to [json.dump]. *)
Definition export_json_result (hs : list string) (rows : list (list string))
  : list (gmap string string) :=
  foldl (fun result row => result ++ [row_dict hs row]) [] rows.

(** ** Further notions used by the properties *)

(** A value in single quotes with no quote inside. *)
Definition quoted (v : string) : Prop :=
  ∃ body, v = "'" +:+ body +:+ "'" ∧ quote_free body.

(** Every element of [l] preceded by a space. *)
Definition spaced (l : list string) : string :=
  foldr (fun x acc => " " +:+ x +:+ acc) EmptyString l.

(** The text of the packing state: its lines, and the line under way when
    there is one, joined by single spaces. *)
Definition state_text (st : list string * string) : string :=
  join " " (st.1 ++ match st.2 with
                    | EmptyString => []
                    | current_line => [current_line]
                    end).

(** The number of lines of the packing state after the first one. *)
Definition state_count (inner : list string) (current_line : string) : nat :=
  length inner + match current_line with
                 | EmptyString => 0
                 | _ => 1
                 end.

(** What holds of the packing state [st] once the values at the positions
    [done_idxs] have been handled, [first] being the first line. *)
Definition pack_inv (enum_values : list string) (w : Z) (first : string)
    (done_idxs : list nat) (st : list string * string) : Prop :=
  ∃ inner,
    st.1 = first :: inner
    ∧ Forall (fits enum_values w) inner
    ∧ (done_idxs = [] → st.2 = EmptyString)
    ∧ (∀ i, last done_idxs = Some i →
            st.2 ≠ EmptyString ∧ fits enum_values w st.2
            ∧ ∃ p, st.2 = p +:+ packed_value enum_values i)
    ∧ (state_count inner st.2 ≤ length done_idxs)%nat
    ∧ state_text st
      = first +:+ spaced (map (packed_value enum_values) done_idxs).

(** A line that is not blank. *)
Definition nonblank (line : string) : bool :=
  negb (bool_decide (Py.strip line = EmptyString)).

(** A cell as the pipe format delivers it: no white space around it and no
    bar inside. *)
Definition clean_cell (cell : string) : Prop :=
  Py.strip cell = cell ∧ has_char "|" cell = false.

(** The concatenation of the strings of [l]. *)
Definition concat_all (l : list string) : string :=
  foldr String.append EmptyString l.

(** A row as it is printed without colour: the bar, then every cell that
    has a column, left-justified in it. *)
Definition plain_row (cw : list Z) (row : list string) : string :=
  "|" +:+ concat_all
            (zip_with (fun cell w => cell_text cell (Py.len cell) w) row cw).

(** Every cell of [row] that has a column is at most as long as the column
    is wide. *)
Definition row_fits (cw : list Z) (row : list string) : Prop :=
  ∀ i c w, row !! i = Some c → cw !! i = Some w → Py.len c ≤ w.

(** No cell of the table holds ["enum("]. *)
Definition enum_free (rows : list (list string)) : Prop :=
  Forall (Forall (fun c => Py.contains "enum(" c = false)) rows.

(** The escape prefixes [colorize_cell] uses. *)
Definition palette : list string :=
  [ Colors.BOLD +:+ Colors.RED; Colors.BOLD +:+ Colors.BLUE;
    Colors.BOLD +:+ Colors.GREEN; Colors.GREEN; Colors.CYAN;
    Colors.YELLOW; Colors.MAGENTA; Colors.BOLD +:+ Colors.YELLOW ].

(** The number of lines a row takes: one, or the number of lines its enum
    cell is wrapped into. *)
Definition row_line_count (type_col : option nat) (cw : list Z)
    (row : list string) : nat :=
  match row_enum_lines type_col cw row with
  | None => 1
  | Some (_, wrapped) => length wrapped
  end.

(** [s] is made of white space only. *)
Fixpoint all_spaces (s : string) : bool :=
  match s with
  | EmptyString => true
  | String c s' => Py.isspace c && all_spaces s'
  end.

(** The text of a cell between two bars, as [cell_text] pads it. *)
Definition field_text (cell : string) (w : Z) : string :=
  " " +:+ Py.ljust cell (Py.len cell) +:+ " "
      +:+ Py.mul " " (w - Py.len cell).

(** The width the renderer gives the [Type] column of the example at a
    terminal width: the other column and the decoration take 12 characters. *)
Definition example_width (term_width : Z) : Z :=
  Z.max 7 (Z.min (term_width - 12) 50).

(** A header as the renderer shows it, in bold when colours are on. *)
Definition bold_text (colorize : bool) (s : string) : string :=
  if colorize then Colors.BOLD +:+ s +:+ Colors.RESET else s.

(** An integer type as [colorize_cell] shows it, in cyan when colours are
    on. *)
Definition cyan_text (colorize : bool) (s : string) : string :=
  if colorize then Colors.CYAN +:+ s +:+ Colors.RESET else s.

(** The cell holds an enumerated-type declaration: the pattern of
    [get_enum_values], [enum(] up to a close parenthesis, occurs in it. *)
Definition holds_enum_declaration (cell : string) : bool :=
  match Py.search_enum cell with
  | Some _ => true
  | None => false
  end.

(** The width a cell asks for as the specification words it: the special
    rule applies to the cells that hold an enum declaration, and measures
    the values of that declaration. *)
Definition claimed_cell_width (cell : string) : Z :=
  if holds_enum_declaration cell
  then Py.max_default0 (map Py.len (get_enum_values cell))
       + Py.len "enum(" + 1
  else Py.len cell.

(** A table with a cell that mentions [enum(] without declaring one. *)
Definition note_lines : list string :=
  [ "| Field | Comment |"; "+--+--+"; "| id | see enum( in the docs |" ].

(** * Properties *)

(** ** Loops that build a list *)

Section Loops.
Context {A B : Type}.

(** A loop whose every iteration appends [g x] to its accumulator. *)
Lemma foldl_appending (f : list A → B → list A) (g : B → list A) :
  (∀ acc x, f acc x = acc ++ g x) →
  ∀ l acc, foldl f acc l = acc ++ flat_map g l.
Proof.
  intros Hf l; induction l as [|x l IH]; intros acc; simpl.
  - by rewrite app_nil_r.
  - by rewrite Hf, IH, app_assoc.
Qed.

Lemma flat_map_optional (keep : B → bool) (g : B → A) (l : list B) :
  flat_map (fun x => if keep x then [g x] else []) l
  = map g (List.filter keep l).
Proof.
  induction l as [|x l IH]; simpl; [done|].
  destruct (keep x); simpl; by rewrite IH.
Qed.

(** Reading [l[i]] for [i] in [range(a, len(l))] visits [l[a:]]. *)
Lemma range_reads_drop (d : B) (l : list B) (a : nat) :
  map (fun i => default d (l !! i)) (Py.range a (length l)) = drop a l.
Proof.
  unfold Py.range. apply list_eq; intros i.
  rewrite list_lookup_fmap, lookup_drop.
  destruct (decide (i < length l - a)%nat) as [Hi|Hi].
  - rewrite lookup_seq_lt by done; simpl.
    destruct (lookup_lt_is_Some_2 l (a + i)%nat) as [x Hx]; [lia|].
    by rewrite Hx.
  - rewrite lookup_seq_ge by lia; simpl.
    symmetry; apply lookup_ge_None; lia.
Qed.
End Loops.

(** ** The functions on the example *)

Example parse_example_lines :
  parse_mysql_table example_lines None
  = (["Field"; "Type"], [["id"; "int(11)"]], [5; 7]).
Proof. reflexivity. Qed.

Example format_enum_abc_10 :
  format_enum "enum('a','b','c')" 10 = ["enum('a',"; "'b', 'c')"].
Proof. reflexivity. Qed.

Example print_example_table :
  print_formatted_table 19 example_table None false
  = Some ([ "+-------+---------+";
            "| Field | Type    |";
            "+-------+---------+";
            "| id    | int(11) |";
            "+-------+---------+" ],
          Table ["Field"; "Type"] [["id"; "int(11)"]] [5; 7]).
Proof. vm_compute. reflexivity. Qed.

(** ** The parser *)

Lemma pipe_data_rows (h : nat) (lines : list string) :
  pipe_data h lines
  = map pipe_cells (List.filter data_line (drop (h + 2) lines)).
Proof.
  unfold pipe_data.
  rewrite <- (range_reads_drop EmptyString lines (h + 2)).
  rewrite <- flat_map_optional.
  rewrite (foldl_appending _
             (fun i => let line := default EmptyString (lines !! i) in
                       if data_line line then [pipe_cells line] else [])).
  - simpl. rewrite flat_map_concat_map, flat_map_concat_map.
    by rewrite map_map.
  - intros acc i; unfold data_line; simpl.
    destruct (Py.startswith _ _); simpl; [by rewrite app_nil_r|].
    destruct (bool_decide _); simpl; [by rewrite app_nil_r|done].
Qed.

(** The header line is the first line that starts with ["| Field"]. *)
Lemma find_header_from_spec (lines : list string) (i h : nat) :
  find_header_from i lines = Some h ↔
  ∃ k line, h = (i + k)%nat ∧ lines !! k = Some line
            ∧ Py.startswith line "| Field" = true
            ∧ ∀ j l, (j < k)%nat → lines !! j = Some l →
                     Py.startswith l "| Field" = false.
Proof.
  revert i; induction lines as [|line lines IH]; intros i; simpl.
  - split; [done|]. by intros (k & l & _ & Hk & _).
  - destruct (Py.startswith line "| Field") eqn:Hs.
    + split.
      * intros [= <-]. exists 0%nat, line.
        repeat split; [lia|done|]. intros j l Hj; lia.
      * intros (k & l & -> & Hk & Hl & Hfirst).
        destruct k as [|k]; [f_equal; lia|].
        specialize (Hfirst 0%nat line ltac:(lia) eq_refl). congruence.
    + rewrite IH. split.
      * intros (k & l & -> & Hk & Hl & Hfirst).
        exists (S k), l. repeat split; [lia|done|done|].
        intros [|j] l' Hj; simpl; [congruence|].
        apply Hfirst; lia.
      * intros (k & l & -> & Hk & Hl & Hfirst).
        destruct k as [|k]; simpl in Hk; [congruence|].
        exists k, l. repeat split; [lia|done|done|].
        intros j l' Hj Hl'. apply (Hfirst (S j) l'); [lia|done].
Qed.

(** C2 (as amended): in the pipe format the rows are the data lines from
    the second line after the header line onwards, each split on the bar
    with the outer fields dropped and every cell stripped; the line right
    after the header line is never read. *)
Theorem pipe_rows_skip_line_after_header
    (first : string) (rest : list string) (h : nat) :
  Py.contains TAB first = false →
  find_header_line (first :: rest) = Some h →
  (parse_mysql_table (first :: rest) None).1.2
  = map pipe_cells (List.filter data_line (drop (h + 2) (first :: rest))).
Proof.
  intros Htab Hh. unfold parse_mysql_table, read_table.
  rewrite Htab, Hh. simpl. apply pipe_data_rows.
Qed.

Lemma pipe_rows_skip_line_after_header_witness :
  (parse_mysql_table example_lines None).1.2
  = map pipe_cells (List.filter data_line (drop (1 + 2) example_lines)).
Proof.
  apply (pipe_rows_skip_line_after_header "+---+------+"
           ["| Field | Type |"; "+---+------+"; "| id | int(11) |";
            "+---+------+"] 1); reflexivity.
Defined.

(** C2 (as stated) fails: a data line right after the header line is not
    returned. *)
Lemma pipe_row_right_after_header_is_dropped :
  find_header_line ["| Field | Type |"; "| id | int |"] = Some 0%nat
  ∧ rows_after_header 0 ["| Field | Type |"; "| id | int |"]
    = [["id"; "int"]]
  ∧ (parse_mysql_table ["| Field | Type |"; "| id | int |"] None).1.2 = []
  ∧ (parse_mysql_table ["| Field | Type |"; "| id | int |"] None).1.2
    ≠ rows_after_header 0 ["| Field | Type |"; "| id | int |"].
Proof. repeat split; try reflexivity. discriminate. Qed.

(** C10: an empty column filter filters nothing. *)
Theorem empty_filter_is_no_filter (lines : list string) :
  parse_mysql_table lines (Some []) = parse_mysql_table lines None.
Proof.
  unfold parse_mysql_table. destruct (read_table lines) as [[hs rows]|]; done.
Qed.

(** *** The column filter *)

Lemma positions_shift (p : string → bool) (a : nat) (hs : list string) :
  positions p (S a) hs = map S (positions p a hs).
Proof.
  revert a; induction hs as [|h hs IH]; intros a; simpl; [done|].
  destruct (p h); simpl; by rewrite IH.
Qed.

Lemma positions_ext (p q : string → bool) (a : nat) (hs : list string) :
  (∀ h, In h hs → p h = q h) → positions p a hs = positions q a hs.
Proof.
  revert a; induction hs as [|h hs IH]; intros a Hpq; simpl; [done|].
  rewrite (Hpq h) by (by left).
  rewrite (IH (S a)) by (intros; apply Hpq; by right). done.
Qed.

Lemma select_columns_loop (keep : list string) (a : nat)
    (hs : list string) (acc : list nat * list string) :
  foldl (fun acc ih =>
           if Py.mem ih.2 keep
           then (acc.1 ++ [ih.1], acc.2 ++ [ih.2])
           else acc)
        acc (zip (seq a (length hs)) hs)
  = (acc.1 ++ positions (fun h => Py.mem h keep) a hs,
     acc.2 ++ List.filter (fun h => Py.mem h keep) hs).
Proof.
  revert a acc; induction hs as [|h hs IH]; intros a [idx ks]; simpl.
  - by rewrite !app_nil_r.
  - rewrite IH. destruct (Py.mem h keep); simpl; [|done].
    by rewrite <- !app_assoc.
Qed.

Lemma select_columns_spec (hs keep : list string) :
  select_columns hs keep
  = (positions (fun h => Py.mem h keep) 0 hs,
     List.filter (fun h => Py.mem h keep) hs).
Proof. unfold select_columns, Py.enumerate. by rewrite select_columns_loop. Qed.

Lemma filter_data_map (sel : list nat) (rows : list (list string)) :
  filter_data sel rows = map (filter_row sel) rows.
Proof.
  unfold filter_data.
  rewrite (foldl_appending _ (fun row => [filter_row sel row])) by done.
  simpl. induction rows as [|r rows IH]; simpl; [done|by rewrite IH].
Qed.

Lemma omap_map_ext {A B C} (f : B → option C) (g : A → B)
    (h : A → option C) (l : list A) :
  (∀ x, f (g x) = h x) → omap f (map g l) = omap h l.
Proof.
  intros Hfg. induction l as [|x l IH]; [done|].
  simpl. rewrite Hfg. destruct (h x); [f_equal|]; exact IH.
Qed.

Lemma filter_row_shift (sel : list nat) (c : string) (row : list string) :
  filter_row (map S sel) (c :: row) = filter_row sel row.
Proof.
  unfold filter_row. apply omap_map_ext. intros i. simpl.
  destruct (decide (i < length row)%nat).
  - rewrite !bool_decide_eq_true_2 by lia. done.
  - rewrite !bool_decide_eq_false_2 by lia. done.
Qed.

Lemma enumerate_filter_shift {A} (q : nat → bool) (a : nat) (l : list A) :
  map snd (List.filter (fun ic => q ic.1) (zip (seq (S a) (length l)) l))
  = map snd (List.filter (fun ic => q (S ic.1)) (zip (seq a (length l)) l)).
Proof.
  revert a; induction l as [|x l IH]; intros a; simpl; [done|].
  destruct (q (S a)); simpl; by rewrite IH.
Qed.

Lemma kept_cells_cons (h : string) (hs keep : list string) (c : string)
    (row : list string) :
  kept_cells (h :: hs) keep (c :: row)
  = (if Py.mem h keep then [c] else []) ++ kept_cells hs keep row.
Proof.
  unfold kept_cells, Py.enumerate.
  transitivity
    ((if Py.mem h keep then [c] else []) ++
     map snd (List.filter
                (fun ic => (fun i => match (h :: hs) !! i with
                           | Some h => Py.mem h keep | None => false end) ic.1)
                (zip (seq 1 (length row)) row))).
  - simpl. by destruct (Py.mem h keep).
  - f_equal.
    exact (enumerate_filter_shift
             (fun i => match (h :: hs) !! i with
                       | Some h => Py.mem h keep | None => false end) 0 row).
Qed.

Lemma kept_cells_nil_l (keep row : list string) : kept_cells [] keep row = [].
Proof.
  unfold kept_cells. generalize (Py.enumerate row).
  induction l as [|x l IH]; simpl; done.
Qed.

Lemma filter_row_nil_r (sel : list nat) : filter_row sel [] = [].
Proof. unfold filter_row. induction sel as [|i sel IH]; simpl; done. Qed.

Lemma filter_row_kept_cells (hs keep row : list string) :
  filter_row (positions (fun h => Py.mem h keep) 0 hs) row
  = kept_cells hs keep row.
Proof.
  revert row; induction hs as [|h hs IH]; intros row.
  - by rewrite kept_cells_nil_l.
  - destruct row as [|c row]; [by rewrite filter_row_nil_r|].
    rewrite kept_cells_cons, <- IH. simpl positions.
    rewrite positions_shift.
    destruct (Py.mem h keep); simpl.
    + unfold filter_row at 1. simpl. f_equal. apply filter_row_shift.
    + apply filter_row_shift.
Qed.

Lemma mem_cons_unknown (x : string) (keep hs : list string) (h : string) :
  Py.mem x hs = false → In h hs → Py.mem h (x :: keep) = Py.mem h keep.
Proof.
  intros Hx Hh. unfold Py.mem in *. simpl.
  destruct (String.eqb h x) eqn:E; [|done].
  apply String.eqb_eq in E; subst h.
  assert (existsb (String.eqb x) hs = true) as Hc; [|congruence].
  apply existsb_exists. exists x. split; [done|apply String.eqb_refl].
Qed.

(** C8: with a non-empty [keepColumns], the parser returns the headers that
    are in the set, in their original order; every row keeps the cells at
    the positions of those headers, positions past the end of a short row
    contributing nothing; and a requested name that is no header changes
    nothing. *)
Theorem column_filter_keeps_requested (lines keep : list string) :
  keep ≠ [] →
  let unfiltered := parse_mysql_table lines None in
  let filtered := parse_mysql_table lines (Some keep) in
  filtered.1.1 = List.filter (fun h => Py.mem h keep) unfiltered.1.1
  ∧ filtered.1.2 = map (kept_cells unfiltered.1.1 keep) unfiltered.1.2
  ∧ ∀ unknown, Py.mem unknown unfiltered.1.1 = false →
      parse_mysql_table lines (Some (unknown :: keep)) = filtered.
Proof.
  intros Hkeep. unfold parse_mysql_table.
  destruct (read_table lines) as [[hs rows]|]; [|by repeat split].
  assert (∀ k, k ≠ [] →
    apply_filter (Some k) hs rows
    = (List.filter (fun h => Py.mem h k) hs,
       map (filter_row (positions (fun h => Py.mem h k) 0 hs)) rows))
    as Hfilter.
  { intros k Hk. unfold apply_filter.
    destruct k as [|x k]; [done|].
    change (truthy (Some (x :: k))) with true.
    change (default [] (Some (x :: k))) with (x :: k).
    cbv iota zeta. rewrite select_columns_spec.
    cbn [fst snd]. by rewrite filter_data_map. }
  rewrite (Hfilter keep Hkeep). cbn [fst snd].
  split; [done|]. split.
  - apply map_ext; intros row. apply filter_row_kept_cells.
  - intros x Hx. rewrite (Hfilter (x :: keep)) by done.
    rewrite (positions_ext (λ h, Py.mem h (x :: keep))
                           (λ h, Py.mem h keep))
      by (intros; by eapply mem_cons_unknown).
    rewrite (List.filter_ext_in (λ h, Py.mem h (x :: keep))
                                (λ h, Py.mem h keep))
      by (intros; by eapply mem_cons_unknown).
    done.
Qed.

Lemma column_filter_keeps_requested_witness :
  (parse_mysql_table example_lines (Some ["Type"; "Key"])).1.1 = ["Type"]
  ∧ (parse_mysql_table example_lines (Some ["Type"; "Key"])).1.2
    = [["int(11)"]].
Proof.
  destruct (column_filter_keeps_requested example_lines ["Type"; "Key"])
    as (Hh & Hr & _); [discriminate|].
  split; [exact Hh|exact Hr].
Defined.

(** *** Column widths *)

Lemma foldl_max_is_maximum (l : list Z) (a : Z) :
  is_maximum (foldl Z.max a l) (a :: l).
Proof.
  revert a; induction l as [|x l IH]; intros a; simpl.
  - split; [by left|]. intros y [<-|[]]; lia.
  - destruct (IH (Z.max a x)) as [Hin Hub]. split.
    + destruct Hin as [Hin|Hin]; [|by right; right].
      rewrite <- Hin. destruct (Z.max_spec a x) as [[_ ->]|[_ ->]];
        [right; by left|by left].
    + intros y [<-|[<-|Hy]].
      * etrans; [|apply Hub; by left]. lia.
      * etrans; [|apply Hub; by left]. lia.
      * apply Hub; by right.
Qed.

Lemma max_default0_is_maximum (l : list Z) :
  l ≠ [] → is_maximum (Py.max_default0 l) l.
Proof. destruct l as [|x l]; [done|]. intros _. apply foldl_max_is_maximum. Qed.

Lemma widen_max (max_width : Z) (cell : string) :
  widen max_width cell = Z.max max_width (cell_width cell).
Proof. unfold widen, cell_width. by destruct (Py.contains _ _). Qed.

Lemma column_width_fold (i : nat) (rows : list (list string)) (a : Z) :
  foldl (fun max_width (row : list string) =>
           match row !! i with
           | Some cell => widen max_width cell
           | None => max_width
           end) a rows
  = foldl Z.max a (map cell_width (column_cells i rows)).
Proof.
  unfold column_cells.
  revert a; induction rows as [|row rows IH]; intros a; simpl; [done|].
  rewrite IH. destruct (row !! i) as [cell|]; simpl; [|done].
  by rewrite widen_max.
Qed.

Lemma initial_widths_map (hs : list string) (rows : list (list string)) :
  initial_widths hs rows
  = map (fun ih => column_width ih.1 ih.2 rows) (Py.enumerate hs).
Proof.
  unfold initial_widths.
  rewrite (foldl_appending _ (fun ih => [column_width ih.1 ih.2 rows]))
    by done.
  simpl. generalize (Py.enumerate hs).
  induction l as [|x l IH]; simpl; [done|by rewrite IH].
Qed.

Lemma enumerate_lookup {A} (l : list A) (i : nat) (x : A) :
  l !! i = Some x → Py.enumerate l !! i = Some (i, x).
Proof.
  intros Hx. unfold Py.enumerate. apply lookup_zip_Some. split; [|done].
  apply lookup_seq. split; [done|]. by eapply lookup_lt_Some.
Qed.

Lemma enumerate_length {A} (l : list A) :
  length (Py.enumerate l) = length l.
Proof.
  unfold Py.enumerate. rewrite length_zip, length_seq. lia.
Qed.

Lemma parse_widths (lines : list string) (fc : option (list string)) :
  (parse_mysql_table lines fc).2
  = initial_widths (parse_mysql_table lines fc).1.1
                   (parse_mysql_table lines fc).1.2.
Proof.
  unfold parse_mysql_table.
  destruct (read_table lines) as [[hs rows]|]; [|done].
  by destruct (apply_filter fc hs rows).
Qed.

(** The parser returns one width for each header. *)
Lemma parse_widths_length (lines : list string) (fc : option (list string)) :
  length (parse_mysql_table lines fc).2
  = length (parse_mysql_table lines fc).1.1.
Proof.
  rewrite parse_widths, initial_widths_map, length_map.
  apply enumerate_length.
Qed.

(** C7 (as amended): the width of a column is the maximum of the length of
    its header and of what its cells ask for; a cell asks for its length,
    except that a cell whose text contains ["enum("], whether or not it
    holds a complete declaration, asks for the length of the longest
    single-quoted substring found anywhere in it (quotes included, 0 when
    there is none) plus the length of ["enum("] plus one. *)
Theorem column_width_is_maximum
    (lines : list string) (fc : option (list string)) (i : nat) (h : string) :
  (parse_mysql_table lines fc).1.1 !! i = Some h →
  ∃ w, (parse_mysql_table lines fc).2 !! i = Some w
       ∧ is_maximum w
           (Py.len h ::
            map cell_width (column_cells i (parse_mysql_table lines fc).1.2)).
Proof.
  intros Hh. rewrite parse_widths, initial_widths_map.
  rewrite list_lookup_fmap, (enumerate_lookup _ _ _ Hh). simpl.
  eexists; split; [done|]. unfold column_width.
  rewrite column_width_fold. apply foldl_max_is_maximum.
Qed.

Lemma column_width_is_maximum_witness :
  ∃ w, (parse_mysql_table enum_lines None).2 !! 1%nat = Some w
       ∧ is_maximum w [4; 7; 15].
Proof.
  apply (column_width_is_maximum enum_lines None 1 "Type"). reflexivity.
Defined.

(** C7 (as stated) fails: a cell that mentions [enum(] without holding a
    declaration does not count with its full length; the 21 characters of
    the cell below leave the column 7 wide. *)
Lemma width_of_cell_with_enum_text_but_no_declaration :
  parse_mysql_table note_lines None
  = (["Field"; "Comment"], [["id"; "see enum( in the docs"]], [5; 7])
  ∧ holds_enum_declaration "see enum( in the docs" = false
  ∧ claimed_cell_width "see enum( in the docs" = 21
  ∧ cell_width "see enum( in the docs" = 6
  ∧ ¬ is_maximum 7
        (Py.len "Comment"
         :: map claimed_cell_width
              (column_cells 1 (parse_mysql_table note_lines None).1.2)).
Proof.
  repeat split; try reflexivity.
  intros [_ Hub]. specialize (Hub 21).
  assert (21 ≤ 7) as H; [|lia]. apply Hub. right. left. reflexivity.
Qed.

(** ** The width planner *)

Lemma find_type_from_spec (hs : list string) (i t : nat) :
  find_type_from i hs = Some t ↔
  ∃ k h, t = (i + k)%nat ∧ hs !! k = Some h ∧ Py.lower h = "type"
         ∧ ∀ j h', (j < k)%nat → hs !! j = Some h' → Py.lower h' ≠ "type".
Proof.
  revert i; induction hs as [|h hs IH]; intros i; simpl.
  - split; [done|]. by intros (k & h & _ & Hk & _).
  - destruct (String.eqb (Py.lower h) "type") eqn:Hs.
    + apply String.eqb_eq in Hs. split.
      * intros [= <-]. exists 0%nat, h.
        repeat split; [lia|done|]. intros j h' Hj; lia.
      * intros (k & h' & -> & Hk & Hl & Hfirst).
        destruct k as [|k]; [f_equal; lia|].
        by destruct (Hfirst 0%nat h ltac:(lia) eq_refl).
    + apply String.eqb_neq in Hs. rewrite IH. split.
      * intros (k & h' & -> & Hk & Hl & Hfirst).
        exists (S k), h'. repeat split; [lia|done|done|].
        intros [|j] h'' Hj; simpl; [congruence|].
        apply Hfirst; lia.
      * intros (k & h' & -> & Hk & Hl & Hfirst).
        destruct k as [|k]; simpl in Hk; [congruence|].
        exists k, h'. repeat split; [lia|done|done|].
        intros j h'' Hj Hh''. apply (Hfirst (S j) h''); [lia|done].
Qed.

Lemma find_type_from_none (hs : list string) (i : nat) :
  find_type_from i hs = None ↔
  ∀ j h, hs !! j = Some h → Py.lower h ≠ "type".
Proof.
  revert i; induction hs as [|h hs IH]; intros i; simpl.
  - split; [|done]. intros _ j h Hj. by rewrite lookup_nil in Hj.
  - destruct (String.eqb (Py.lower h) "type") eqn:Hs.
    + apply String.eqb_eq in Hs. split; [done|].
      intros Hall. by destruct (Hall 0%nat h eq_refl).
    + apply String.eqb_neq in Hs. rewrite IH. split.
      * intros Hall [|j] h' Hj; simpl in Hj; [congruence|by eapply Hall].
      * intros Hall j h' Hj. by apply (Hall (S j) h').
Qed.

(** [type_col_index] finds the flexible column of the specification. *)
Lemma type_col_index_spec (hs : list string) (t : nat) :
  type_col_index hs = Some t ↔ flex_column hs t.
Proof.
  unfold type_col_index, flex_column.
  destruct (find_type_from 0 hs) as [t'|] eqn:Hfind.
  - apply find_type_from_spec in Hfind as (k & h & -> & Hk & Hl & Hfirst).
    simpl. split.
    + intros [= <-]. left. by exists h.
    + intros [(h' & Ht & Hl' & Hfirst')|(Hnone & _)].
      * f_equal. destruct (Nat.lt_trichotomy k t) as [Hlt|[->|Hlt]]; [|done|].
        -- by destruct (Hfirst' k h Hlt Hk).
        -- by destruct (Hfirst t h' Hlt Ht).
      * by destruct (Hnone k h Hk).
  - pose proof (proj1 (find_type_from_none hs 0) Hfind) as Hnone.
    clear Hfind; rename Hnone into Hfind. split.
    + case_bool_decide; [|done]. intros [= <-]. by right.
    + intros [(h & Ht & Hl & _)|(_ & Hlen & ->)].
      * by destruct (Hfind t h Ht).
      * by rewrite bool_decide_eq_true_2.
Qed.

(** C1 (as amended): the flexible column gets the width
    [max(original, min(terminalWidth - nonFlexibleWidth, 50))]; that width
    is at least the original one and at most [max(original, 50)], hence at
    most 50 whenever the original width is. *)
Theorem flexible_width_formula
    (hs : list string) (cw : list Z) (term_width : Z) (t : nat) :
  flex_column hs t →
  length cw = length hs →
  ∃ w cw',
    cw !! t = Some w
    ∧ adjust_widths term_width (type_col_index hs) cw = Some cw'
    ∧ cw' !! t
      = Some (Z.max w (Z.min (term_width - non_flexible_width cw w) 50))
    ∧ ∀ w', cw' !! t = Some w' →
        w ≤ w' ∧ w' ≤ Z.max w 50 ∧ (w ≤ 50 → w' ≤ 50).
Proof.
  intros Hflex Hlen.
  assert (t < length cw)%nat as Ht.
  { rewrite Hlen. destruct Hflex as [(h & Hh & _)|(_ & Hl & ->)]; [|done].
    by eapply lookup_lt_Some. }
  apply type_col_index_spec in Hflex. rewrite Hflex.
  destruct (lookup_lt_is_Some_2 cw t Ht) as [w Hw].
  exists w. eexists. split; [done|].
  unfold adjust_widths. rewrite Hw. simpl. split; [done|].
  rewrite list_lookup_insert_eq by done.
  unfold non_flexible_width.
  replace (sum cw - w + (Z.of_nat (length cw) - 1) * 3 + 4)
    with (sum cw - w + 3 * (Z.of_nat (length cw) - 1) + 4) by lia.
  split; [done|]. intros w' [= <-]. lia.
Qed.

Lemma flexible_width_formula_witness :
  ∃ w cw',
    [5; 7] !! 1%nat = Some w
    ∧ adjust_widths 80 (type_col_index ["Field"; "Type"]) [5; 7] = Some cw'
    ∧ cw' !! 1%nat
      = Some (Z.max w (Z.min (80 - non_flexible_width [5; 7] w) 50))
    ∧ ∀ w', cw' !! 1%nat = Some w' →
        w ≤ w' ∧ w' ≤ Z.max w 50 ∧ (w ≤ 50 → w' ≤ 50).
Proof.
  apply (flexible_width_formula ["Field"; "Type"] [5; 7] 80 1).
  - left. exists "Type". repeat split; try reflexivity.
    intros [|j] h' Hj; [|lia]. intros [= <-]. discriminate.
  - reflexivity.
Defined.

(** C1 (as stated) fails: a flexible column whose content needs more than
    50 characters keeps its width, which is then above 50. *)
Lemma flexible_width_above_50 :
  flex_column ["Field"; "Type"] 1
  ∧ adjust_widths 80 (type_col_index ["Field"; "Type"]) [5; 60]
    = Some [5; 60]
  ∧ ¬ (60 ≤ 50).
Proof.
  split; [|split; [reflexivity|lia]].
  left. exists "Type". repeat split; try reflexivity.
  intros [|j] h' Hj; [|lia]. intros [= <-]. discriminate.
Qed.

(** ** The renderer *)

(** The padding loop appends the missing empty cells and nothing else. *)
Lemma pad_loop_spec (fuel n : nat) (row : list string) :
  (n - length row ≤ fuel)%nat →
  pad_loop fuel n row = row ++ replicate (n - length row) EmptyString.
Proof.
  revert row; induction fuel as [|fuel IH]; intros row Hfuel; simpl.
  - replace (n - length row)%nat with 0%nat by lia. by rewrite app_nil_r.
  - case_bool_decide as Hlt.
    + rewrite IH by (rewrite length_app; simpl; lia).
      rewrite length_app; simpl.
      replace (n - length row)%nat with (S (n - (length row + 1)))%nat by lia.
      simpl. by rewrite <- app_assoc.
    + replace (n - length row)%nat with 0%nat by lia. by rewrite app_nil_r.
Qed.

Lemma pad_row_spec (n : nat) (row : list string) :
  pad_row n row = row ++ replicate (n - length row) EmptyString.
Proof. apply pad_loop_spec; lia. Qed.

(** A loop in the error monad runs to its end when no iteration raises. *)
Lemma foldl_no_raise {A B} (f : option A → B → option A) (P : B → Prop)
    (l : list B) :
  (∀ a x, P x → is_Some (f (Some a) x)) →
  Forall P l → ∀ a, is_Some (foldl f (Some a) l).
Proof.
  intros Hf HP; induction HP as [|x l Hx _ IH]; intros a; simpl; [done|].
  destruct (Hf a x Hx) as [a' ->]. apply IH.
Qed.

Lemma enumerate_Forall_lt {A} (l : list A) :
  Forall (fun ix : nat * A => (ix.1 < length l)%nat) (Py.enumerate l).
Proof.
  apply Forall_lookup; intros i [j x] Hix; simpl.
  unfold Py.enumerate in Hix. apply lookup_zip_Some in Hix as [Hj _].
  apply lookup_seq in Hj. simpl in Hj. lia.
Qed.

Section NoIndexError.
Variables (hs : list string) (cw : list Z) (colorize : bool).
Hypothesis Hlen : length cw = length hs.

Lemma header_line_prints : is_Some (header_line hs cw colorize).
Proof.
  unfold header_line.
  apply (foldl_no_raise _ (fun ih => (ih.1 < length hs)%nat));
    [|apply enumerate_Forall_lt].
  intros line [i h] Hi; simpl in *.
  destruct (lookup_lt_is_Some_2 cw i) as [w ->]; [lia|]. done.
Qed.

Lemma normal_row_line_prints (row : list string) :
  is_Some (normal_row_line hs cw colorize row).
Proof.
  unfold normal_row_line.
  apply (foldl_no_raise _ (fun _ => True)); [|by apply Forall_true].
  intros line [i c] _; simpl.
  case_bool_decide as Hi; [|done].
  destruct (lookup_lt_is_Some_2 hs i) as [h ->]; [lia|].
  destruct (lookup_lt_is_Some_2 cw i) as [w ->]; [lia|]. done.
Qed.

Lemma enum_row_line_prints (row : list string) (enum_col n j : nat)
    (enum_line : string) :
  is_Some (enum_row_line hs cw colorize row enum_col n j enum_line).
Proof.
  unfold enum_row_line.
  apply (foldl_no_raise _ (fun _ => True)); [|by apply Forall_true].
  intros line [i c] _; simpl.
  case_bool_decide as Hi; [|done].
  destruct (lookup_lt_is_Some_2 hs i) as [h ->]; [lia|].
  destruct (lookup_lt_is_Some_2 cw i) as [w ->]; [lia|]. simpl.
  repeat case_bool_decide; done.
Qed.

Lemma row_lines_prints (type_col : option nat) (row : list string) :
  is_Some (row_lines hs cw colorize type_col row).
Proof.
  unfold row_lines.
  destruct (row_enum_lines type_col cw row) as [[enum_col lines]|].
  - apply (foldl_no_raise _ (fun _ => True)); [|by apply Forall_true].
    intros out [j enum_line] _; simpl.
    destruct (enum_row_line_prints row enum_col (length lines) j enum_line)
      as [line ->]. done.
  - destruct (normal_row_line_prints row) as [line ->]. done.
Qed.

Lemma print_rows_loop (type_col : option nat) (rows : list (list string))
    (out : list string) (done_rows : list (list string)) :
  ∃ out',
    foldl (fun acc row =>
             st ← acc;
             let row' := pad_row (length hs) row in
             ls ← row_lines hs cw colorize type_col row';
             Some (st.1 ++ ls, st.2 ++ [row']))
          (Some (out, done_rows)) rows
    = Some (out', done_rows ++ map (pad_row (length hs)) rows).
Proof.
  revert out done_rows; induction rows as [|row rows IH];
    intros out done_rows; simpl.
  - exists out. by rewrite app_nil_r.
  - destruct (row_lines_prints type_col (pad_row (length hs) row))
      as [ls ->]. simpl.
    destruct (IH (out ++ ls) (done_rows ++ [pad_row (length hs) row]))
      as [out' Hout].
    exists out'. etrans; [exact Hout|]. by rewrite <- app_assoc.
Qed.

Lemma print_rows_pads (type_col : option nat) (rows : list (list string)) :
  ∃ out,
    print_rows hs cw colorize type_col rows
    = Some (out, map (pad_row (length hs)) rows).
Proof. apply (print_rows_loop type_col rows [] []). Qed.
End NoIndexError.

Lemma adjust_widths_frame (term_width : Z) (type_col : option nat)
    (cw : list Z) :
  (∀ t, type_col = Some t → (t < length cw)%nat) →
  ∃ cw', adjust_widths term_width type_col cw = Some cw'
         ∧ length cw' = length cw
         ∧ ∀ i, type_col ≠ Some i → cw' !! i = cw !! i.
Proof.
  intros Hin. destruct type_col as [t|]; simpl.
  - destruct (lookup_lt_is_Some_2 cw t (Hin t eq_refl)) as [w ->]. simpl.
    eexists; split; [done|]. split; [by rewrite length_insert|].
    intros i Hi. apply list_lookup_insert_ne. congruence.
  - by exists cw.
Qed.

Lemma type_col_index_lt (hs : list string) (t : nat) :
  type_col_index hs = Some t → (t < length hs)%nat.
Proof.
  intros Ht. apply type_col_index_spec in Ht.
  destruct Ht as [(h & Hh & _)|(_ & Hl & ->)]; [|done].
  by eapply lookup_lt_Some.
Qed.

(** C9 (as amended): on a table with one width for each header the
    renderer raises nothing; it leaves the headers alone, changes no width
    other than that of the flexible column, and changes a row only by
    appending the empty cells it lacks to reach the header count, so that a
    row at least as long as the headers is left as it is. *)
Theorem render_changes_flex_width_and_pads_rows
    (term_width : Z) (t : table) (stats : option (gmap string string))
    (colorize : bool) :
  length (column_widths t) = length (headers t) →
  ∃ out t',
    print_formatted_table term_width t stats colorize = Some (out, t')
    ∧ headers t' = headers t
    ∧ length (column_widths t') = length (column_widths t)
    ∧ (∀ i, type_col_index (headers t) ≠ Some i →
            column_widths t' !! i = column_widths t !! i)
    ∧ data t'
      = map (fun row =>
               row ++ replicate (length (headers t) - length row) EmptyString)
            (data t)
    ∧ (∀ i row, data t !! i = Some row →
                (length (headers t) ≤ length row)%nat →
                data t' !! i = Some row).
Proof.
  intros Hlen. unfold print_formatted_table.
  destruct (adjust_widths_frame term_width (type_col_index (headers t))
              (column_widths t)) as (cw & -> & Hlen' & Hframe).
  { intros i Hi. rewrite Hlen. by apply type_col_index_lt. }
  simpl.
  assert (length cw = length (headers t)) as Hcw by congruence.
  destruct (header_line_prints (headers t) cw colorize Hcw) as [hl ->].
  simpl.
  destruct (print_rows_pads (headers t) cw colorize Hcw
              (type_col_index (headers t)) (data t)) as [body ->].
  simpl. eexists _, _. split; [done|]. simpl.
  assert (map (pad_row (length (headers t))) (data t)
          = map (fun row => row ++ replicate
                                     (length (headers t) - length row)
                                     EmptyString) (data t)) as ->.
  { apply map_ext; intros row. apply pad_row_spec. }
  repeat split; try done.
  intros i row Hrow Hlong. rewrite list_lookup_fmap, Hrow. simpl.
  replace (length (headers t) - length row)%nat with 0%nat by lia.
  by rewrite app_nil_r.
Qed.

Lemma render_changes_flex_width_and_pads_rows_witness :
  ∃ out t',
    print_formatted_table 80 (Table ["Field"; "Type"] [["id"]] [5; 4])
                          None false = Some (out, t')
    ∧ headers t' = ["Field"; "Type"]
    ∧ data t' = [["id"; EmptyString]].
Proof.
  destruct (render_changes_flex_width_and_pads_rows 80
              (Table ["Field"; "Type"] [["id"]] [5; 4]) None false)
    as (out & t' & Hp & Hh & _ & _ & Hd & _); [reflexivity|].
  exists out, t'. split; [exact Hp|]. split; [exact Hh|exact Hd].
Defined.

(** C9 (as stated) fails: a row shorter than the headers is changed, the
    renderer appends the missing empty cell to it. *)
Lemma render_changes_short_row :
  ∃ out t',
    print_formatted_table 80 (Table ["Field"; "Type"] [["id"]] [5; 4])
                          None false = Some (out, t')
    ∧ data t' = [["id"; EmptyString]]
    ∧ data t' ≠ [["id"]].
Proof. eexists _, _. vm_compute. repeat split. discriminate. Qed.

(** C3 (as amended): the example parses to the headers [Field], [Type] and
    the single row [id], [int(11)]; rendering it without statistics prints
    exactly five lines whatever the terminal width and the colour flag: the
    border, the header row, the border again, the data row and the closing
    border, with the text given here, the [Type] column being
    [example_width term_width] wide. *)
Theorem example_parses_and_prints_five_lines
    (term_width : Z) (colorize : bool) :
  parse_mysql_table example_lines None
  = (["Field"; "Type"], [["id"; "int(11)"]], [5; 7])
  ∧ print_formatted_table term_width example_table None colorize
    = Some ([ "+-------+" +:+ Py.mul "-" (example_width term_width + 2)
                          +:+ "+";
              "| " +:+ bold_text colorize "Field" +:+ " | "
                   +:+ bold_text colorize "Type" +:+ " "
                   +:+ Py.mul " " (example_width term_width - 4) +:+ "|";
              "+-------+" +:+ Py.mul "-" (example_width term_width + 2)
                          +:+ "+";
              "| id    | " +:+ cyan_text colorize "int(11)" +:+ " "
                   +:+ Py.mul " " (example_width term_width - 7) +:+ "|";
              "+-------+" +:+ Py.mul "-" (example_width term_width + 2)
                          +:+ "+" ],
            Table ["Field"; "Type"] [["id"; "int(11)"]]
                  [5; example_width term_width]).
Proof.
  split; [reflexivity|].
  unfold print_formatted_table, example_table.
  change (type_col_index _) with (Some 1%nat).
  cbn [headers data column_widths adjust_widths].
  change ([5; 7] !! 1%nat) with (Some 7). cbn [mbind option_bind].
  change (Z.max 7
            (Z.min (term_width
                    - (sum [5; 7] - 7
                       + (Z.of_nat (length [5; 7]) - 1) * 3 + 4)) 50))
    with (example_width term_width).
  generalize (example_width term_width).
  intros w. change (<[1%nat:=w]> [5; 7]) with [5; w].
  destruct colorize; reflexivity.
Qed.

(** C3 (as stated) fails: the example prints five lines, not four. *)
Lemma example_does_not_print_four_lines :
  ∃ out t',
    print_formatted_table 80 example_table None false = Some (out, t')
    ∧ length out = 5%nat ∧ length out ≠ 4%nat.
Proof. eexists _, _. vm_compute. repeat split. discriminate. Qed.

(** ** The enum extractor *)

Lemma append_cons (c : ascii) (a b : string) :
  String c a +:+ b = String c (a +:+ b).
Proof. reflexivity. Qed.

Lemma append_nil_l (b : string) : EmptyString +:+ b = b.
Proof. reflexivity. Qed.

Lemma append_assoc (a b c : string) : (a +:+ b) +:+ c = a +:+ b +:+ c.
Proof. induction a as [|x a IH]; push_append; [done|by rewrite IH]. Qed.

Lemma append_nil_r (a : string) : a +:+ EmptyString = a.
Proof. induction a as [|x a IH]; push_append; [done|by rewrite IH]. Qed.

Lemma length_append (a b : string) :
  String.length (a +:+ b) = (String.length a + String.length b)%nat.
Proof. induction a as [|x a IH]; push_append; [done|by rewrite IH]. Qed.

Lemma len_append (a b : string) : Py.len (a +:+ b) = Py.len a + Py.len b.
Proof. unfold Py.len. rewrite length_append. lia. Qed.

Section Findall.
(** Text without a quote holds no match. *)
Lemma findall_skip (a r : string) :
  quote_free a → Py.findall_from None (a +:+ r) = Py.findall_from None r.
Proof.
  unfold quote_free. induction a as [|c a IH]; simpl; [done|].
  destruct (Ascii.eqb c "'"); simpl; [done|]. exact IH.
Qed.

(** A match under way ends at the next quote. *)
Lemma findall_close (m v r : string) :
  quote_free v →
  Py.findall_from (Some m) (v +:+ "'" +:+ r)
  = (m +:+ v +:+ "'") :: Py.findall_from None r.
Proof.
  unfold quote_free. revert m; induction v as [|c v IH]; intros m; simpl.
  - done.
  - destruct (Ascii.eqb c "'"); simpl; [done|]. intros Hv.
    rewrite IH by done. by rewrite append_assoc.
Qed.

Lemma findall_unclosed (m v : string) :
  quote_free v → Py.findall_from (Some m) v = [].
Proof.
  unfold quote_free. revert m; induction v as [|c v IH]; intros m; simpl.
  - done.
  - destruct (Ascii.eqb c "'"); simpl; [done|]. apply IH.
Qed.

(** The first quoted substring is returned with its quotes, and the scan
    goes on after it. *)
Lemma findall_quoted_value (a v rest : string) :
  quote_free a → quote_free v →
  Py.findall_quoted (a +:+ "'" +:+ v +:+ "'" +:+ rest)
  = ("'" +:+ v +:+ "'") :: Py.findall_quoted rest.
Proof.
  intros Ha Hv. unfold Py.findall_quoted.
  rewrite findall_skip by done.
  change (Py.findall_from None ("'" +:+ v +:+ "'" +:+ rest))
    with (Py.findall_from (Some "'") (v +:+ "'" +:+ rest)).
  by rewrite findall_close.
Qed.

(** Without two quotes there is nothing to return. *)
Lemma findall_quoted_none (a b : string) :
  quote_free a → quote_free b →
  Py.findall_quoted a = [] ∧ Py.findall_quoted (a +:+ "'" +:+ b) = [].
Proof.
  intros Ha Hb. unfold Py.findall_quoted. split.
  - rewrite <- (append_nil_r a). by rewrite findall_skip.
  - rewrite findall_skip by done.
    change (Py.findall_from None ("'" +:+ b))
      with (Py.findall_from (Some "'") b).
    by apply findall_unclosed.
Qed.
End Findall.

Section Search.
Lemma upto_newline_append (content rest : string) :
  one_line content →
  Py.upto_newline (content +:+ rest) = content +:+ Py.upto_newline rest.
Proof.
  unfold one_line. induction content as [|c s IH]; simpl; [done|].
  destruct (Ascii.eqb c "010"); simpl; [done|]. intros Hs. by rewrite IH.
Qed.

Lemma upto_newline_one_line (s : string) : one_line (Py.upto_newline s).
Proof.
  unfold one_line. induction s as [|c s IH]; simpl; [done|].
  destruct (Ascii.eqb c "010") eqn:E; simpl; [done|]. by rewrite E.
Qed.

Lemma upto_newline_split (s : string) :
  ∃ rest, s = Py.upto_newline s +:+ rest
          ∧ Py.upto_newline rest = EmptyString.
Proof.
  induction s as [|c s (rest & IH & Hrest)]; simpl;
    [by exists EmptyString|].
  destruct (Ascii.eqb c "010") eqn:E; simpl.
  - exists (String c s). simpl. by rewrite E.
  - exists rest. by rewrite append_cons, <- IH.
Qed.

Lemma one_line_append (a b : string) :
  one_line (a +:+ b) ↔ one_line a ∧ one_line b.
Proof.
  unfold one_line. induction a as [|c a IH].
  - rewrite append_nil_l. simpl. tauto.
  - rewrite append_cons. simpl.
    destruct (Ascii.eqb c "010"); simpl; [|exact IH].
    split; [done|]. by intros [? _].
Qed.

Lemma before_last_rparen_none (s : string) :
  Py.before_last_rparen s = None ↔ has_char ")" s = false.
Proof.
  induction s as [|c s IH]; simpl; [done|].
  destruct (Py.before_last_rparen s).
  - split; [done|]. intros H. apply orb_false_elim in H as [_ H].
    by apply IH in H.
  - destruct (Ascii.eqb c ")"); simpl; [done|]. naive_solver.
Qed.

(** The greedy group stops at the last close parenthesis. *)
Lemma before_last_rparen_last (content rest : string) :
  has_char ")" rest = false →
  Py.before_last_rparen (content +:+ ")" +:+ rest) = Some content.
Proof.
  intros Hrest. apply before_last_rparen_none in Hrest.
  induction content as [|c s IH].
  - change (Py.before_last_rparen (String ")" rest) = Some EmptyString).
    simpl. by rewrite Hrest.
  - rewrite append_cons. simpl. by rewrite IH.
Qed.

Lemma before_last_rparen_some (s g : string) :
  Py.before_last_rparen s = Some g →
  ∃ rest, s = g +:+ ")" +:+ rest ∧ has_char ")" rest = false.
Proof.
  revert g; induction s as [|c s IH]; intros g; simpl; [done|].
  destruct (Py.before_last_rparen s) as [r|] eqn:Hr.
  - intros [= <-]. destruct (IH r eq_refl) as (rest & -> & Hrest).
    by exists rest.
  - destruct (Ascii.eqb c ")") eqn:E; [|done]. intros [= <-].
    apply Ascii.eqb_eq in E as ->. exists s. split; [done|].
    by apply before_last_rparen_none.
Qed.

Lemma prefix_enum_split (s : string) :
  String.prefix "enum(" s = true → s = "enum(" +:+ Py.drop_chars 5 s.
Proof.
  intros H.
  destruct s as [|c1 [|c2 [|c3 [|c4 [|c5 s]]]]]; simpl in H; try done;
    repeat (match type of H with
            | (if ?d then _ else _) = true =>
                destruct d as [<-|]; [|done]
            end); done.
Qed.

Lemma prefix_enum_append (body : string) :
  String.prefix "enum(" ("enum(" +:+ body) = true.
Proof. simpl. by destruct body. Qed.

(** A successful attempt at the start of [s]. *)
Lemma match_enum_here_some (s g : string) :
  Py.match_enum_here s = Some g ↔
  ∃ post, s = "enum(" +:+ g +:+ ")" +:+ post ∧ one_line g
          ∧ has_char ")" (Py.upto_newline post) = false.
Proof.
  unfold Py.match_enum_here. split.
  - destruct (String.prefix "enum(" s) eqn:Hp; [|done].
    intros Hg. apply prefix_enum_split in Hp.
    apply before_last_rparen_some in Hg as (r & Hr & Hno).
    destruct (upto_newline_split (Py.drop_chars 5 s))
      as (tail & Htail & Hnl).
    pose proof (upto_newline_one_line (Py.drop_chars 5 s)) as Hone.
    rewrite Hr in Hone.
    apply one_line_append in Hone as [Hg Hone].
    apply one_line_append in Hone as [_ Hone].
    exists (r +:+ tail). split; [|split; [done|]].
    + rewrite Hp at 1. rewrite Htail at 1. rewrite Hr.
      by rewrite !append_assoc.
    + rewrite upto_newline_append, Hnl, append_nil_r by done. done.
  - intros (post & -> & Hg & Hno).
    rewrite prefix_enum_append.
    change (Py.drop_chars 5 ("enum(" +:+ g +:+ ")" +:+ post))
      with (g +:+ ")" +:+ post).
    rewrite upto_newline_append by done. simpl.
    by apply before_last_rparen_last.
Qed.
End Search.

Lemma has_char_append (c : ascii) (a b : string) :
  has_char c (a +:+ b) = has_char c a || has_char c b.
Proof.
  induction a as [|x a IH]; [done|].
  rewrite append_cons. simpl. by rewrite IH, orb_assoc.
Qed.

Lemma search_enum_unfold (s : string) :
  Py.search_enum s
  = match Py.match_enum_here s with
    | Some g => Some g
    | None => match s with
              | EmptyString => None
              | String _ s' => Py.search_enum s'
              end
    end.
Proof. by destruct s. Qed.

Lemma search_enum_leftmost (pre content post : string) :
  one_line content →
  has_char ")" (Py.upto_newline post) = false →
  no_match_before (pre +:+ "enum(" +:+ content +:+ ")" +:+ post) pre →
  Py.search_enum (pre +:+ "enum(" +:+ content +:+ ")" +:+ post)
  = Some content.
Proof.
  intros Hone Hpost. induction pre as [|c pre IH]; intros Hleft.
  - rewrite append_nil_l, search_enum_unfold.
    rewrite (proj2 (match_enum_here_some _ content)); [done|].
    by exists post.
  - rewrite search_enum_unfold.
    destruct (Py.match_enum_here _) as [g|] eqn:Hhere.
    + apply match_enum_here_some in Hhere as (post' & Hs & Hg & _).
      specialize (Hleft EmptyString (g +:+ ")" +:+ post') Hs).
      rewrite upto_newline_append, has_char_append in Hleft by done.
      change (Py.upto_newline (")" +:+ post'))
        with (String ")" (Py.upto_newline post')) in Hleft.
      simpl in Hleft. rewrite orb_true_r in Hleft.
      discriminate Hleft. simpl; lia.
    + rewrite append_cons. apply IH.
      intros pre' body' Hs Hlt.
      apply (Hleft (String c pre') body').
      * rewrite !append_cons. by f_equal.
      * simpl. lia.
Qed.

Lemma search_enum_some (s g : string) :
  Py.search_enum s = Some g →
  ∃ pre post, s = pre +:+ "enum(" +:+ g +:+ ")" +:+ post ∧ one_line g.
Proof.
  induction s as [|c s IH]; rewrite search_enum_unfold.
  - destruct (Py.match_enum_here _) as [g'|] eqn:Hhere; [|done].
    intros [= ->]. apply match_enum_here_some in Hhere as (post & Hs & Hg & _).
    by exists EmptyString, post.
  - destruct (Py.match_enum_here _) as [g'|] eqn:Hhere.
    + intros [= ->].
      apply match_enum_here_some in Hhere as (post & Hs & Hg & _).
      by exists EmptyString, post.
    + intros Hs. destruct (IH Hs) as (pre & post & -> & Hg).
      by exists (String c pre), post.
Qed.

(** C6 (as amended): the extractor returns the quoted substrings, in source
    order and with their quotes, of the content between the leftmost
    ["enum("] that has a close parenthesis after it on its line and the LAST
    close parenthesis of that line; it returns nothing when the declaration
    has no ["enum("] followed on its line by a close parenthesis. *)
Theorem enum_values_upto_last_close (s : string) :
  (∀ pre content post,
     s = pre +:+ "enum(" +:+ content +:+ ")" +:+ post →
     one_line content →
     has_char ")" (Py.upto_newline post) = false →
     no_match_before s pre →
     get_enum_values s = Py.findall_quoted content)
  ∧ ((∀ pre content post,
        one_line content →
        s ≠ pre +:+ "enum(" +:+ content +:+ ")" +:+ post) →
     get_enum_values s = [])
  ∧ (∀ a v rest,
       quote_free a → quote_free v →
       Py.findall_quoted (a +:+ "'" +:+ v +:+ "'" +:+ rest)
       = ("'" +:+ v +:+ "'") :: Py.findall_quoted rest)
  ∧ (∀ a b,
       quote_free a → quote_free b →
       Py.findall_quoted a = []
       ∧ Py.findall_quoted (a +:+ "'" +:+ b) = []).
Proof.
  unfold get_enum_values. split; [|split; [|split]].
  - intros pre content post -> Hone Hpost Hleft.
    by rewrite search_enum_leftmost.
  - intros Habsent. destruct (Py.search_enum s) as [g|] eqn:Hs; [|done].
    apply search_enum_some in Hs as (pre & post & Hs & Hg).
    by destruct (Habsent pre g post Hg).
  - apply findall_quoted_value.
  - apply findall_quoted_none.
Qed.

Lemma enum_values_upto_last_close_witness :
  get_enum_values "x enum('a') or ('b') y" = ["'a'"; "'b'"].
Proof.
  destruct (enum_values_upto_last_close "x enum('a') or ('b') y")
    as (Hvalues & _).
  apply (Hvalues "x " "'a') or ('b'" " y"); try reflexivity.
  intros pre' body' Hs Hlt.
  destruct pre' as [|c1 [|c2 pre']]; simpl in Hlt; [| |lia];
    discriminate Hs.
Defined.

(** C6 (as stated) fails: the content does not stop at the close
    parenthesis that matches the open one, it runs to the last one. *)
Lemma enum_values_beyond_matching_close :
  values_upto_matching_close "enum('a') or ('b')" = ["'a'"]
  ∧ get_enum_values "enum('a') or ('b')" = ["'a'"; "'b'"]
  ∧ get_enum_values "enum('a') or ('b')"
    ≠ values_upto_matching_close "enum('a') or ('b')".
Proof. repeat split; try reflexivity. discriminate. Qed.

(** ** The enum wrapper *)

(** C4 (as amended): wrapping [enum('a','b','c')] at width 10 gives two
    lines; the first starts with [enum('a',], the value with its quotes and
    a comma; the last ends with the close parenthesis; and the quoted
    values found on the lines, taken in order, are the values of the
    declaration in their original order. *)
Theorem wrap_abc_at_10 :
  format_enum "enum('a','b','c')" 10 = ["enum('a',"; "'b', 'c')"]
  ∧ Py.startswith (List.hd EmptyString (format_enum "enum('a','b','c')" 10))
                  "enum('a'," = true
  ∧ ends_with (List.last (format_enum "enum('a','b','c')" 10) EmptyString) ")"
  ∧ flat_map Py.findall_quoted (format_enum "enum('a','b','c')" 10)
    = get_enum_values "enum('a','b','c')"
  ∧ get_enum_values "enum('a','b','c')" = ["'a'"; "'b'"; "'c'"].
Proof.
  repeat split; try reflexivity. by exists "'b', 'c'".
Qed.

(** C4 (as stated) fails: the first line does not start with [enum(a,],
    the values keep their quotes. *)
Lemma wrap_abc_first_line_keeps_quotes :
  List.hd EmptyString (format_enum "enum('a','b','c')" 10) = "enum('a',"
  ∧ Py.startswith (List.hd EmptyString (format_enum "enum('a','b','c')" 10))
                  "enum(a," = false.
Proof. split; reflexivity. Qed.

(** C5, at the failing input: at width 8 the two values ['b',] and ['c']
    pass the width check together (8 characters), the close parenthesis is
    appended afterwards, and the last line, which carries two values, is 9
    characters long. *)
Theorem wrap_last_line_overflows :
  format_enum "enum('a','b','c')" 8 = ["enum('a',"; "'b', 'c')"]
  ∧ Py.findall_quoted "'b', 'c')" = ["'b'"; "'c'"]
  ∧ Py.len "'b', 'c')" = 9
  ∧ ¬ (Py.len "'b', 'c')" ≤ 8).
Proof. repeat split; try reflexivity. vm_compute. by intros H. Qed.

(** *** What the packing loop does guarantee *)

(** The greedy rule: with a line under way, value [i] starts a new line
    exactly when the line, a space and the value together exceed the
    width; otherwise it joins the line after one space. *)
Lemma pack_step_greedy (enum_values : list string) (w : Z)
    (lines : list string) (current_line : string) (i : nat) :
  current_line ≠ EmptyString →
  let val := packed_value enum_values i in
  (w < Py.len current_line + 1 + Py.len val →
   pack_step enum_values w (lines, current_line) i
   = (lines ++ [current_line], val))
  ∧ (Py.len current_line + 1 + Py.len val ≤ w →
     pack_step enum_values w (lines, current_line) i
     = (lines, current_line +:+ " " +:+ val)).
Proof.
  intros Hne val. unfold pack_step. fold val. simpl.
  destruct current_line as [|c cur]; [done|].
  rewrite !len_append. change (Py.len " ") with 1.
  split; intros Hw.
  - rewrite bool_decide_eq_true_2 by lia. done.
  - rewrite bool_decide_eq_false_2 by lia. done.
Qed.

Lemma pack_step_fits (enum_values : list string) (w : Z)
    (first : string) (inner : list string) (current_line : string) (i : nat) :
  Forall (fits enum_values w) inner →
  current_line = EmptyString ∨ fits enum_values w current_line →
  ∃ inner' current_line',
    pack_step enum_values w (first :: inner, current_line) i
    = (first :: inner', current_line')
    ∧ Forall (fits enum_values w) inner'
    ∧ fits enum_values w current_line'.
Proof.
  intros Hinner Hcur. unfold pack_step. simpl.
  destruct current_line as [|c cur].
  - exists inner, (packed_value enum_values i).
    repeat split; [done|]. right. by exists i.
  - destruct Hcur as [Hcur|Hcur]; [done|]. case_bool_decide as Hw.
    + exists (inner ++ [String c cur]), (packed_value enum_values i).
      repeat split.
      * apply Forall_app. split; [done|]. by apply Forall_singleton.
      * right. by exists i.
    + exists inner, (String c cur +:+ " " +:+ packed_value enum_values i).
      repeat split; [done|]. left. lia.
Qed.

Lemma pack_loop_fits (enum_values : list string) (w : Z) (first : string)
    (idxs : list nat) (inner : list string) (current_line : string) :
  Forall (fits enum_values w) inner →
  current_line = EmptyString ∨ fits enum_values w current_line →
  ∃ inner' current_line',
    foldl (pack_step enum_values w) (first :: inner, current_line) idxs
    = (first :: inner', current_line')
    ∧ Forall (fits enum_values w) inner'
    ∧ (current_line' = EmptyString ∨ fits enum_values w current_line').
Proof.
  revert inner current_line; induction idxs as [|i idxs IH];
    intros inner current_line Hinner Hcur; simpl.
  - by exists inner, current_line.
  - destruct (pack_step_fits enum_values w first inner current_line i)
      as (inner1 & cur1 & -> & Hinner1 & Hcur1); [done..|].
    apply IH; [done|by right].
Qed.

(** Every line of a wrapped declaration other than the first fits before
    the closing parenthesis is put on the last one. *)
Lemma wrap_lines_fit_before_closing (enum_str : string) (w : Z) :
  get_enum_values enum_str ≠ [] →
  ∃ first rest,
    format_enum enum_str w = close_last (first :: rest)
    ∧ Forall (fits (get_enum_values enum_str) w) rest.
Proof.
  intros Hne. unfold format_enum.
  destruct (get_enum_values enum_str) as [|v0 vs] eqn:Hvs; [done|].
  match goal with
  | |- context [foldl ?f (?l, ?c) ?idxs] =>
      destruct (pack_loop_fits (v0 :: vs) w
                  (if bool_decide (1 < length (v0 :: vs))%nat
                   then "enum(" +:+ v0 +:+ "," else "enum(" +:+ v0)
                  idxs [] EmptyString)
        as (inner & cur & Hloop & Hinner & Hcur); [done|by left|]
  end.
  cbv zeta. rewrite Hloop. cbn [fst snd].
  destruct cur as [|c cur].
  - eexists _, inner. split; [reflexivity|done].
  - destruct Hcur as [Hcur|Hcur]; [done|].
    eexists _, (inner ++ [String c cur]).
    split; [reflexivity|]. apply Forall_app. split; [done|].
    by apply Forall_singleton.
Qed.

(** * Further properties *)

(** ** Extracted values are quoted strings *)

Lemma quote_free_append (a b : string) :
  quote_free (a +:+ b) ↔ quote_free a ∧ quote_free b.
Proof.
  unfold quote_free. rewrite has_char_append.
  destruct (has_char "'" a), (has_char "'" b); simpl; intuition congruence.
Qed.

Lemma findall_from_quoted (s : string) (open : option string) :
  (∀ m, open = Some m → ∃ body, m = "'" +:+ body ∧ quote_free body) →
  Forall quoted (Py.findall_from open s).
Proof.
  revert open; induction s as [|c s IH]; intros open Hopen; simpl; [done|].
  destruct open as [m|].
  - destruct (Hopen m eq_refl) as (body & -> & Hbody).
    destruct (Ascii.eqb c "'") eqn:E.
    + apply Forall_cons. split.
      * exists body. by rewrite append_assoc.
      * apply IH. by intros m [=].
    + apply IH. intros m [= <-]. exists (body +:+ String c EmptyString).
      split; [by rewrite append_assoc|].
      apply quote_free_append. split; [done|].
      unfold quote_free. simpl. by rewrite E.
  - destruct (Ascii.eqb c "'") eqn:E.
    + apply IH. intros m [= <-]. by exists EmptyString.
    + apply IH. by intros m [=].
Qed.

Lemma get_enum_values_quoted (enum_str : string) :
  Forall quoted (get_enum_values enum_str).
Proof.
  unfold get_enum_values.
  destruct (Py.search_enum enum_str) as [content|]; [|done].
  apply findall_from_quoted. by intros m [=].
Qed.

(** X1: Every value the extractor returns is a single-quoted string with no
    quote inside: it starts and ends with a quote and is at least two
    characters long. *)
Theorem enum_values_are_quoted (enum_str : string) :
  Forall (fun v => quoted v ∧ 2 ≤ Py.len v) (get_enum_values enum_str).
Proof.
  eapply Forall_impl; [apply get_enum_values_quoted|].
  intros v Hv. split; [done|].
  destruct Hv as (body & -> & _). rewrite !len_append.
  change (Py.len "'") with 1. unfold Py.len. lia.
Qed.

(** ** The wrapper, in general *)

Lemma foldl_prefix_invariant {A B} (f : A → B → A)
    (P : list B → A → Prop) (Q : B → Prop) :
  (∀ done_items a x, Q x → P done_items a → P (done_items ++ [x]) (f a x)) →
  ∀ l done_items a,
    Forall Q l → P done_items a → P (done_items ++ l) (foldl f a l).
Proof.
  intros Hstep l; induction l as [|x l IH]; intros done_items a HQ HP; simpl.
  - by rewrite app_nil_r.
  - apply Forall_cons in HQ as [Hx HQ].
    replace (done_items ++ x :: l) with ((done_items ++ [x]) ++ l)
      by (by rewrite <- app_assoc).
    apply IH; [done|]. by apply Hstep.
Qed.

Lemma join_cons (sep x y : string) (l : list string) :
  join sep (x :: y :: l) = x +:+ sep +:+ join sep (y :: l).
Proof. reflexivity. Qed.

Lemma join_snoc (sep x : string) (l : list string) :
  l ≠ [] → join sep (l ++ [x]) = join sep l +:+ sep +:+ x.
Proof.
  induction l as [|y l IH]; [done|]. intros _.
  destruct l as [|z l]; [done|].
  change ((y :: z :: l) ++ [x]) with (y :: (z :: l) ++ [x]).
  change ((z :: l) ++ [x]) with (z :: l ++ [x]) at 1.
  rewrite join_cons.
  change (z :: l ++ [x]) with ((z :: l) ++ [x]).
  rewrite IH by done. rewrite join_cons.
  by rewrite (append_assoc y), (append_assoc sep).
Qed.

Lemma join_snoc_append (sep x y : string) (l : list string) :
  join sep (l ++ [x +:+ y]) = join sep (l ++ [x]) +:+ y.
Proof.
  destruct l as [|z l]; [done|].
  rewrite !join_snoc by done.
  by rewrite (append_assoc (join sep (z :: l))), (append_assoc sep).
Qed.

Lemma spaced_snoc (l : list string) (x : string) :
  spaced (l ++ [x]) = spaced l +:+ " " +:+ x.
Proof.
  unfold spaced. induction l as [|y l IH]; simpl.
  - by rewrite append_nil_r.
  - fold (spaced (l ++ [x])) in *. fold (spaced l) in *. rewrite IH.
    by rewrite (append_assoc " "), (append_assoc y).
Qed.

Lemma packed_value_nonempty (enum_values : list string) (i : nat) :
  Forall quoted enum_values → (i < length enum_values)%nat →
  ∃ c r, packed_value enum_values i = String c r.
Proof.
  intros Hq Hi. unfold packed_value.
  destruct (lookup_lt_is_Some_2 enum_values i Hi) as [v Hv]. rewrite Hv.
  destruct (proj1 (Forall_lookup _ _) Hq i v Hv) as (body & -> & _).
  simpl. case_bool_decide; by eexists _, _.
Qed.

Lemma state_text_idle (lines : list string) :
  state_text (lines, EmptyString) = join " " lines.
Proof. unfold state_text. simpl. by rewrite app_nil_r. Qed.

Lemma state_text_under_way (lines : list string) (c : ascii) (r : string) :
  state_text (lines, String c r) = join " " (lines ++ [String c r]).
Proof. reflexivity. Qed.

Lemma pack_inv_step (enum_values : list string) (w : Z) (first : string)
    (done_idxs : list nat) (st : list string * string) (i : nat) :
  (∃ c r, packed_value enum_values i = String c r) →
  pack_inv enum_values w first done_idxs st →
  pack_inv enum_values w first (done_idxs ++ [i])
           (pack_step enum_values w st i).
Proof.
  intros (vc & vr & Hval) (inner & Hl & Hin & Hempty & Hlast & Hcount & Htext).
  destruct st as [lines cur]; simpl in *; subst lines.
  unfold pack_step; simpl.
  assert (spaced (map (packed_value enum_values) (done_idxs ++ [i]))
          = spaced (map (packed_value enum_values) done_idxs)
            +:+ " " +:+ packed_value enum_values i) as Hsp.
  { rewrite map_app. apply spaced_snoc. }
  destruct cur as [|c r].
  - exists inner. split; [done|]. split; [done|]. split.
    { intros H. by apply app_nil in H as [_ H]. }
    split.
    { intros j Hj. rewrite last_snoc in Hj. injection Hj as <-.
      split; [by rewrite Hval|]. split; [right; by exists i|].
      by exists EmptyString. }
    split.
    { unfold state_count in *. rewrite Hval, length_app. simpl. lia. }
    rewrite Hsp, <- (append_assoc first), <- Htext.
    rewrite state_text_idle, Hval, state_text_under_way.
    by rewrite (join_snoc " " _ (first :: inner)).
  - destruct (last done_idxs) as [j|] eqn:Hj.
    2:{ apply last_None in Hj. by specialize (Hempty Hj). }
    destruct (Hlast j eq_refl) as (_ & Hfit & _).
    case_bool_decide as Hw.
    + exists (inner ++ [String c r]). split; [done|]. split.
      { apply Forall_app. split; [done|]. by apply Forall_singleton. }
      split.
      { intros H. by apply app_nil in H as [_ H]. }
      split.
      { intros k Hk. rewrite last_snoc in Hk. injection Hk as <-.
        split; [by rewrite Hval|]. split; [right; by exists i|].
        by exists EmptyString. }
      split.
      { unfold state_count in *. rewrite Hval, !length_app. simpl in *. lia. }
      rewrite Hsp, <- (append_assoc first), <- Htext.
      rewrite Hval, !state_text_under_way.
      by rewrite (join_snoc " " _ ((first :: inner) ++ [String c r])).
    + exists inner. split; [done|]. split; [done|]. split.
      { intros H. by apply app_nil in H as [_ H]. }
      split.
      { intros k Hk. rewrite last_snoc in Hk. injection Hk as <-.
        split; [done|]. split; [left; apply Z.nlt_ge in Hw; exact Hw|].
        by exists (String c r +:+ " "); rewrite append_assoc. }
      split.
      { unfold state_count in *. rewrite length_app. simpl in *. lia. }
      rewrite Hsp, <- (append_assoc first), <- Htext.
      rewrite !state_text_under_way.
      exact (join_snoc_append " " (String c r)
               (" " +:+ packed_value enum_values i) (first :: inner)).
Qed.

Lemma pack_loop_inv (enum_values : list string) (w : Z) (first : string) :
  Forall quoted enum_values →
  pack_inv enum_values w first (Py.range 1 (length enum_values))
    (foldl (pack_step enum_values w) ([first], EmptyString)
           (Py.range 1 (length enum_values))).
Proof.
  intros Hq.
  apply (foldl_prefix_invariant (pack_step enum_values w)
           (pack_inv enum_values w first)
           (fun i => ∃ c r, packed_value enum_values i = String c r)
           ltac:(intros; by apply pack_inv_step)
           (Py.range 1 (length enum_values)) []).
  - apply Forall_forall. intros i Hi. apply packed_value_nonempty; [done|].
    unfold Py.range in Hi. apply elem_of_seq in Hi. lia.
  - exists []. repeat split; try done.
    rewrite state_text_idle. simpl. by rewrite append_nil_r.
Qed.

Lemma endswith_comma_snoc (a : string) (c : ascii) :
  Py.endswith_comma (a +:+ String c EmptyString) = Ascii.eqb c ",".
Proof.
  induction a as [|x a IH]; [done|].
  rewrite append_cons. simpl. rewrite IH.
  destruct a; reflexivity.
Qed.

Lemma quoted_no_final_comma (p v : string) :
  quoted v → Py.endswith_comma (p +:+ v) = false.
Proof.
  intros (body & -> & _).
  rewrite <- (append_assoc p "'" (body +:+ "'")).
  rewrite <- (append_assoc (p +:+ "'") body "'").
  apply endswith_comma_snoc.
Qed.

Lemma close_last_snoc (lines : list string) (l : string) :
  Py.endswith_comma l = false →
  close_last (lines ++ [l]) = lines ++ [l +:+ ")"].
Proof.
  intros Hl. unfold close_last.
  destruct (lines ++ [l]) eqn:E; [by destruct lines|]. rewrite <- E.
  by rewrite removelast_last, last_last, Hl.
Qed.

(** The packed values after the first, each behind a space, spell the
    comma-separated list. *)
Lemma spaced_packed (enum_values pre : list string) (x : string)
    (rest : list string) :
  enum_values = pre ++ x :: rest → rest ≠ [] →
  x +:+ "," +:+ spaced (map (packed_value enum_values)
                          (seq (S (length pre)) (length rest)))
  = join ", " (x :: rest).
Proof.
  revert pre x; induction rest as [|y rest IH]; intros pre x Hvs Hne; [done|].
  clear Hne.
  assert (enum_values !! S (length pre) = Some y) as Hy.
  { rewrite Hvs. rewrite lookup_app_r by lia.
    by replace (S (length pre) - length pre)%nat with 1%nat by lia. }
  assert (length enum_values = (length pre + 2 + length rest)%nat) as Hlen.
  { rewrite Hvs, length_app. simpl. lia. }
  simpl seq. simpl map. unfold spaced at 1. simpl foldr.
  fold (spaced (map (packed_value enum_values)
                  (seq (S (S (length pre))) (length rest)))).
  unfold packed_value at 1. rewrite Hy. simpl default.
  destruct rest as [|z rest].
  - rewrite bool_decide_eq_false_2 by (rewrite Hlen; simpl; lia).
    simpl. by rewrite append_nil_r.
  - rewrite bool_decide_eq_true_2 by (rewrite Hlen; simpl; lia).
    rewrite join_cons.
    rewrite <- (IH (pre ++ [x]) y).
    + rewrite length_app. simpl length.
      replace (length pre + 1)%nat with (S (length pre)) by lia.
      rewrite (append_assoc y). done.
    + by rewrite <- app_assoc.
    + done.
Qed.

(** The state the packing loop leaves for two values or more. *)
Lemma wrap_core (enum_str : string) (w : Z) (v0 v1 : string)
    (vs : list string) :
  get_enum_values enum_str = v0 :: v1 :: vs →
  ∃ inner body,
    format_enum enum_str w
    = ("enum(" +:+ v0 +:+ ",") :: inner ++ [body +:+ ")"]
    ∧ Forall (fits (v0 :: v1 :: vs) w) inner
    ∧ fits (v0 :: v1 :: vs) w body
    ∧ (length inner + 2 ≤ length (v0 :: v1 :: vs))%nat
    ∧ join " " (("enum(" +:+ v0 +:+ ",") :: inner ++ [body])
      = "enum(" +:+ join ", " (v0 :: v1 :: vs).
Proof.
  intros Hvs.
  assert (Forall quoted (v0 :: v1 :: vs)) as Hq.
  { rewrite <- Hvs. apply get_enum_values_quoted. }
  unfold format_enum. rewrite Hvs.
  rewrite bool_decide_eq_true_2 by (simpl; lia). cbv zeta.
  pose proof (pack_loop_inv (v0 :: v1 :: vs) w ("enum(" +:+ v0 +:+ ",") Hq)
    as Hinv.
  destruct (foldl _ _ _) as [lines cur].
  destruct Hinv as (inner & Hl & Hin & _ & Hlast & Hcount & Htext).
  simpl in Hl; subst lines.
  assert (Py.range 1 (length (v0 :: v1 :: vs))
          = seq 1 (length vs) ++ [S (length vs)]) as Hrange.
  { unfold Py.range. simpl length.
    replace (S (S (length vs)) - 1)%nat with (S (length vs)) by lia.
    by rewrite seq_S. }
  destruct (Hlast (S (length vs))) as (Hne & Hfit & p & Hp).
  { rewrite Hrange. apply last_snoc. }
  simpl in Hne, Hfit, Hp.
  assert (Py.endswith_comma cur = false) as Hcomma.
  { rewrite Hp. apply quoted_no_final_comma.
    unfold packed_value.
    rewrite bool_decide_eq_false_2 by (simpl length; lia).
    destruct (lookup_lt_is_Some_2 (v0 :: v1 :: vs) (S (length vs)))
      as [y Hy]; [simpl; lia|].
    rewrite Hy. simpl. by apply (proj1 (Forall_lookup _ _) Hq _ _ Hy). }
  cbn [fst snd]. destruct cur as [|c r]; [done|].
  exists inner, (String c r).
  change (("enum(" +:+ v0 +:+ ",") :: inner ++ [String c r +:+ ")"])
    with ((("enum(" +:+ v0 +:+ ",") :: inner) ++ [String c r +:+ ")"]).
  rewrite close_last_snoc by done.
  split; [done|]. split; [done|]. split; [done|]. split.
  { unfold state_count in Hcount. rewrite Hrange, length_app in Hcount.
    rewrite length_seq in Hcount. simpl in *. lia. }
  rewrite state_text_under_way in Htext.
  etrans; [exact Htext|].
  rewrite (append_assoc "enum("), (append_assoc v0). f_equal.
  exact (spaced_packed (v0 :: v1 :: vs) [] v0 (v1 :: vs) eq_refl
           ltac:(done)).
Qed.

Lemma wrap_single (enum_str : string) (w : Z) (v : string) :
  get_enum_values enum_str = [v] →
  format_enum enum_str w = ["enum(" +:+ v +:+ ")"].
Proof.
  intros Hvs.
  assert (quoted v) as Hq.
  { pose proof (get_enum_values_quoted enum_str) as H. rewrite Hvs in H.
    by apply Forall_cons in H as [H _]. }
  unfold format_enum. rewrite Hvs.
  rewrite bool_decide_eq_false_2 by (simpl; lia). cbv zeta.
  change (Py.range 1 (length [v])) with (@nil nat). cbn [foldl fst snd].
  etrans; [apply (close_last_snoc [] ("enum(" +:+ v))|].
  - by apply quoted_no_final_comma.
  - simpl. by rewrite append_assoc.
Qed.

(** X2: A declaration with one value is not wrapped: the only line is
    [enum(], the value and the close parenthesis, whatever the width. *)
Theorem wrap_single_value (enum_str : string) (w : Z) (v : string) :
  get_enum_values enum_str = [v] →
  format_enum enum_str w = ["enum(" +:+ v +:+ ")"].
Proof. apply wrap_single. Qed.

Lemma wrap_single_value_witness :
  format_enum "enum('only')" 3 = ["enum(" +:+ "'only'" +:+ ")"].
Proof. apply (wrap_single_value "enum('only')" 3 "'only'"). reflexivity. Defined.

(** X3: With two values or more, the wrapped declaration is the first line
    [enum(first,], then lines that each fit the width or hold one value
    alone, then a last line that fits in the same sense before its close
    parenthesis is added: the last line is at most one character over the
    width unless it holds a single value.  There are at least two lines and
    at most as many lines as values. *)
Theorem wrap_shape_and_bounds (enum_str : string) (w : Z) (v0 v1 : string)
    (vs : list string) :
  get_enum_values enum_str = v0 :: v1 :: vs →
  ∃ inner body,
    format_enum enum_str w
    = ("enum(" +:+ v0 +:+ ",") :: inner ++ [body +:+ ")"]
    ∧ Forall (fits (v0 :: v1 :: vs) w) inner
    ∧ (Py.len (body +:+ ")") ≤ w + 1
       ∨ ∃ i, body = packed_value (v0 :: v1 :: vs) i)
    ∧ (2 ≤ length (format_enum enum_str w) ≤ length (v0 :: v1 :: vs))%nat.
Proof.
  intros Hvs.
  destruct (wrap_core enum_str w v0 v1 vs Hvs)
    as (inner & body & Hf & Hin & Hfit & Hcount & _).
  exists inner, body. split; [done|]. split; [done|]. split.
  - destruct Hfit as [Hfit|Hfit]; [left|by right].
    rewrite len_append. change (Py.len ")") with 1. lia.
  - rewrite Hf. simpl length. rewrite length_app. simpl length in *. lia.
Qed.

Lemma wrap_shape_and_bounds_witness :
  ∃ inner body,
    format_enum "enum('a','b','c')" 8
    = ("enum(" +:+ "'a'" +:+ ",") :: inner ++ [body +:+ ")"]
    ∧ Forall (fits ["'a'"; "'b'"; "'c'"] 8) inner
    ∧ (Py.len (body +:+ ")") ≤ 8 + 1
       ∨ ∃ i, body = packed_value ["'a'"; "'b'"; "'c'"] i)
    ∧ (2 ≤ length (format_enum "enum('a','b','c')" 8) ≤ 3)%nat.
Proof.
  apply (wrap_shape_and_bounds "enum('a','b','c')" 8 "'a'" "'b'" ["'c'"]).
  reflexivity.
Defined.

(** X4: Wrapping loses nothing and the width only moves the line breaks: the
    lines joined by single spaces are [enum(], the values separated by a
    comma and a space, and the close parenthesis, for every width. *)
Theorem wrap_rejoins (enum_str : string) (w : Z) :
  get_enum_values enum_str ≠ [] →
  join " " (format_enum enum_str w)
  = "enum(" +:+ join ", " (get_enum_values enum_str) +:+ ")".
Proof.
  intros Hne.
  destruct (get_enum_values enum_str) as [|v0 [|v1 vs]] eqn:Hvs; [done| |].
  - by rewrite (wrap_single enum_str w v0 Hvs).
  - destruct (wrap_core enum_str w v0 v1 vs Hvs)
      as (inner & body & -> & _ & _ & _ & Htext).
    change (("enum(" +:+ v0 +:+ ",") :: inner ++ [body +:+ ")"])
      with ((("enum(" +:+ v0 +:+ ",") :: inner) ++ [body +:+ ")"]).
    rewrite join_snoc_append.
    change ((("enum(" +:+ v0 +:+ ",") :: inner) ++ [body])
      with (("enum(" +:+ v0 +:+ ",") :: inner ++ [body]).
    rewrite Htext. by rewrite append_assoc.
Qed.

Lemma wrap_rejoins_witness :
  join " " (format_enum "enum('on','standby','off')" 12)
  = "enum('on', 'standby', 'off')".
Proof.
  apply (wrap_rejoins "enum('on','standby','off')" 12). discriminate.
Defined.

(** ** The parser, further *)

Lemma tab_data_rows (lines : list string) :
  tab_data lines
  = map (Py.split "009") (List.filter nonblank (drop 1 lines)).
Proof.
  unfold tab_data.
  rewrite <- (range_reads_drop EmptyString lines 1).
  rewrite <- flat_map_optional.
  rewrite (foldl_appending _
             (fun i => let line := default EmptyString (lines !! i) in
                       if nonblank line then [Py.split "009" line] else [])).
  - simpl. rewrite flat_map_concat_map, flat_map_concat_map.
    by rewrite map_map.
  - intros acc i; unfold nonblank; simpl.
    destruct (bool_decide _); simpl; [by rewrite app_nil_r|done].
Qed.

(** X5: In the tab format the headers are the fields of the first line and the
    rows are the fields of every later line that is not blank; nothing is
    stripped and no line is skipped. *)
Theorem tab_table (first : string) (rest : list string) :
  Py.contains TAB first = true →
  (parse_mysql_table (first :: rest) None).1
  = (Py.split "009" first,
     map (Py.split "009") (List.filter nonblank rest)).
Proof.
  intros Htab. unfold parse_mysql_table, read_table. rewrite Htab. simpl.
  by rewrite tab_data_rows.
Qed.

Lemma find_header_from_none (lines : list string) (i : nat) :
  Forall (fun l => Py.startswith l "| Field" = false) lines →
  find_header_from i lines = None.
Proof.
  intros Hall; revert i; induction Hall as [|l lines Hl _ IH]; intros i;
    simpl; [done|]. by rewrite Hl.
Qed.

(** X6: Without a line that starts with ["| Field"], input that is not in the
    tab format parses to nothing, with or without a column filter; so does
    the empty input. *)
Theorem parse_without_header_line
    (lines : list string) (fc : option (list string)) :
  (∀ first, head lines = Some first → Py.contains TAB first = false) →
  Forall (fun l => Py.startswith l "| Field" = false) lines →
  parse_mysql_table lines fc = ([], [], []).
Proof.
  intros Htab Hall. unfold parse_mysql_table, read_table.
  destruct lines as [|first rest]; [done|].
  rewrite (Htab first eq_refl). unfold find_header_line.
  by rewrite find_header_from_none.
Qed.

Lemma tab_table_witness :
  (parse_mysql_table
     ["Field" +:+ TAB +:+ "Type"; "id" +:+ TAB +:+ " int"; " ";
      "name" +:+ TAB +:+ "text"] None).1
  = (["Field"; "Type"], [["id"; " int"]; ["name"; "text"]]).
Proof.
  apply (tab_table ("Field" +:+ TAB +:+ "Type")
           ["id" +:+ TAB +:+ " int"; " "; "name" +:+ TAB +:+ "text"]).
  reflexivity.
Defined.

Lemma parse_without_header_line_witness :
  parse_mysql_table ["+----+-----+"; "| id | int |"] (Some ["id"])
  = ([], [], []).
Proof.
  apply (parse_without_header_line ["+----+-----+"; "| id | int |"]).
  - intros first [= <-]. reflexivity.
  - repeat constructor.
Defined.

(** *** Cells of the pipe format *)

Lemma split_pieces_free (sep : ascii) (s : string) :
  Forall (fun p => has_char sep p = false) (Py.split sep s).
Proof.
  induction s as [|c s IH]; simpl; [by repeat constructor|].
  destruct (Ascii.eqb c sep) eqn:E.
  - by apply Forall_cons.
  - destruct (Py.split sep s) as [|f fs].
    + apply Forall_singleton. simpl. by rewrite E.
    + apply Forall_cons in IH as [Hf Hfs]. apply Forall_cons. split; [|done].
      simpl. by rewrite E, Hf.
Qed.

Lemma lstrip_free (c : ascii) (s : string) :
  has_char c s = false → has_char c (Py.lstrip s) = false.
Proof.
  induction s as [|x s IH]; simpl; [done|]. intros H.
  apply orb_false_elim in H as [Hx Hs].
  destruct (Py.isspace x); [by apply IH|]. simpl. by rewrite Hx, Hs.
Qed.

Lemma rstrip_free (c : ascii) (s : string) :
  has_char c s = false → has_char c (Py.rstrip s) = false.
Proof.
  induction s as [|x s IH]; simpl; [done|]. intros H.
  apply orb_false_elim in H as [Hx Hs]. specialize (IH Hs).
  destruct (Py.rstrip s) as [|y r].
  - destruct (Py.isspace x); simpl; [done|]. by rewrite Hx.
  - simpl in *. by rewrite Hx, IH.
Qed.

Lemma rstrip_idempotent (s : string) : Py.rstrip (Py.rstrip s) = Py.rstrip s.
Proof.
  induction s as [|x s IH]; simpl; [done|].
  destruct (Py.rstrip s) as [|y r] eqn:E.
  - destruct (Py.isspace x) eqn:Ex; simpl; [done|]. by rewrite Ex.
  - simpl in IH |- *. by rewrite IH.
Qed.

(** What [rstrip] leaves starts as the text did. *)
Lemma rstrip_keeps_head (x : ascii) (s : string) :
  Py.isspace x = false → ∃ r, Py.rstrip (String x s) = String x r.
Proof.
  intros Hx. simpl. destruct (Py.rstrip s); rewrite ?Hx; by eexists.
Qed.

Lemma lstrip_head (s : string) :
  Py.lstrip s = EmptyString
  ∨ ∃ x r, Py.lstrip s = String x r ∧ Py.isspace x = false.
Proof.
  induction s as [|x s IH]; simpl; [by left|].
  destruct (Py.isspace x) eqn:Ex; [done|]. right. by exists x, s.
Qed.

Lemma strip_idempotent (s : string) : Py.strip (Py.strip s) = Py.strip s.
Proof.
  unfold Py.strip.
  destruct (lstrip_head s) as [->|(x & r & -> & Hx)]; [done|].
  destruct (rstrip_keeps_head x r Hx) as [r' Hr]. rewrite Hr.
  simpl Py.lstrip. rewrite Hx. rewrite <- Hr. apply rstrip_idempotent.
Qed.

Lemma pipe_cells_clean (line : string) : Forall clean_cell (pipe_cells line).
Proof.
  unfold pipe_cells, Py.slice_1_m1.
  pose proof (split_pieces_free "|" line) as Hfree.
  assert (Forall (fun p => has_char "|" p = false)
                 (removelast (tail (Py.split "|" line)))) as Hsl.
  { apply Forall_forall. intros p Hp.
    apply (proj1 (Forall_forall _ _) Hfree).
    apply list_elem_of_In in Hp. apply list_elem_of_In.
    assert (∀ (l : list string) x, In x (removelast l) → In x l) as Hrl.
    { clear. induction l as [|y l IH]; [done|]. intros x.
      destruct l as [|z l]; [done|]. intros [<-|H]; [by left|].
      right. by apply IH. }
    apply Hrl in Hp. destruct (Py.split "|" line); [done|by right]. }
  apply Forall_fmap. eapply Forall_impl; [exact Hsl|].
  intros p Hp. split; [apply strip_idempotent|].
  unfold Py.strip. by apply rstrip_free, lstrip_free.
Qed.

Lemma filter_row_sub (sel : list nat) (row : list string) (P : string → Prop) :
  Forall P row → Forall P (filter_row sel row).
Proof.
  intros HP. unfold filter_row. induction sel as [|i sel IH]; [done|].
  simpl. case_bool_decide; [|exact IH].
  destruct (row !! i) as [c|] eqn:Hc; [|exact IH].
  apply Forall_cons. split; [|exact IH].
  by apply (proj1 (Forall_lookup _ _) HP i c).
Qed.

Lemma parsed_cells_clean
    (lines : list string) (fc : option (list string)) :
  (∀ first, head lines = Some first → Py.contains TAB first = false) →
  Forall clean_cell (parse_mysql_table lines fc).1.1
  ∧ Forall (Forall clean_cell) (parse_mysql_table lines fc).1.2.
Proof.
  intros Htab. unfold parse_mysql_table, read_table.
  destruct lines as [|first rest]; [done|].
  rewrite (Htab first eq_refl).
  destruct (find_header_line (first :: rest)) as [h|]; [|done].
  set (hs := pipe_cells _). set (rows := pipe_data _ _).
  assert (Forall clean_cell hs) as Hhs by apply pipe_cells_clean.
  assert (Forall (Forall clean_cell) rows) as Hrows.
  { unfold rows. rewrite pipe_data_rows. apply Forall_fmap.
    apply Forall_forall. intros l _. apply pipe_cells_clean. }
  unfold apply_filter. destruct (truthy fc); [|done].
  rewrite select_columns_spec. cbn [fst snd]. split.
  - apply Forall_forall. intros x Hx. apply list_elem_of_In in Hx.
    apply List.filter_In in Hx as [Hx _].
    apply (proj1 (Forall_forall _ _) Hhs). by apply list_elem_of_In.
  - rewrite filter_data_map. apply Forall_fmap.
    eapply Forall_impl; [exact Hrows|]. intros row Hrow.
    by apply filter_row_sub.
Qed.

(** X7: In the pipe format every header and every cell the parser returns, with
    or without a column filter, is free of surrounding white space and of
    bars. *)
Theorem pipe_table_cells_clean
    (lines : list string) (fc : option (list string)) :
  (∀ first, head lines = Some first → Py.contains TAB first = false) →
  Forall clean_cell (parse_mysql_table lines fc).1.1
  ∧ Forall (Forall clean_cell) (parse_mysql_table lines fc).1.2.
Proof. apply parsed_cells_clean. Qed.

Lemma pipe_table_cells_clean_witness :
  Forall clean_cell (parse_mysql_table example_lines None).1.1
  ∧ Forall (Forall clean_cell) (parse_mysql_table example_lines None).1.2.
Proof.
  apply (pipe_table_cells_clean example_lines None).
  intros first [= <-]. reflexivity.
Defined.

(** ** The renderer, further *)

(** What a call prints and leaves behind, on a table with one width for
    each header. *)
Lemma print_structure (term_width : Z) (t : table)
    (stats : option (gmap string string)) (colorize : bool) :
  length (column_widths t) = length (headers t) →
  ∃ cw hl body,
    adjust_widths term_width (type_col_index (headers t)) (column_widths t)
    = Some cw
    ∧ length cw = length (headers t)
    ∧ header_line (headers t) cw colorize = Some hl
    ∧ print_rows (headers t) cw colorize (type_col_index (headers t)) (data t)
      = Some (body, map (pad_row (length (headers t))) (data t))
    ∧ print_formatted_table term_width t stats colorize
      = Some (stats_block stats colorize
                ++ [separator cw; hl; separator cw] ++ body
                ++ [separator cw],
              Table (headers t)
                    (map (pad_row (length (headers t))) (data t)) cw).
Proof.
  intros Hlen. unfold print_formatted_table.
  destruct (adjust_widths_frame term_width (type_col_index (headers t))
              (column_widths t)) as (cw & Hcw & Hlen' & _).
  { intros i Hi. rewrite Hlen. by apply type_col_index_lt. }
  assert (length cw = length (headers t)) as Hcwl by congruence.
  destruct (header_line_prints (headers t) cw colorize Hcwl) as [hl Hhl].
  destruct (print_rows_pads (headers t) cw colorize Hcwl
              (type_col_index (headers t)) (data t)) as [body Hbody].
  exists cw, hl, body. do 4 (split; [done|]).
  rewrite Hcw. simpl. rewrite Hhl. simpl. rewrite Hbody. simpl.
  by rewrite <- !app_assoc.
Qed.

Lemma foldl_add_acc (l : list Z) (a : Z) :
  foldl Z.add a l = a + foldl Z.add 0 l.
Proof.
  revert a; induction l as [|x l IH]; intros a; simpl; [lia|].
  rewrite (IH (a + x)), (IH (0 + x)). lia.
Qed.

Lemma sum_cons (x : Z) (l : list Z) : sum (x :: l) = x + sum l.
Proof. unfold sum. simpl. apply foldl_add_acc. Qed.

Lemma sum_insert (l : list Z) (i : nat) (w x : Z) :
  l !! i = Some w → sum (<[i := x]> l) = sum l - w + x.
Proof.
  revert i; induction l as [|y l IH]; intros i Hi; [done|].
  destruct i as [|i]; simpl in *.
  - injection Hi as ->. rewrite !sum_cons. lia.
  - rewrite !sum_cons, (IH i Hi). lia.
Qed.

(** A second adjustment at the same terminal width changes nothing. *)
Lemma adjust_widths_idempotent (term_width : Z) (type_col : option nat)
    (cw cw' : list Z) :
  adjust_widths term_width type_col cw = Some cw' →
  adjust_widths term_width type_col cw' = Some cw'.
Proof.
  destruct type_col as [t|]; simpl; [|by intros [= ->]].
  destruct (cw !! t) as [w|] eqn:Hw; simpl; [|done]. intros [= <-].
  assert (t < length cw)%nat as Ht by (by eapply lookup_lt_Some).
  rewrite list_lookup_insert_eq by done. simpl.
  rewrite (sum_insert cw t w) by done. rewrite length_insert.
  rewrite list_insert_insert_eq. do 2 f_equal. lia.
Qed.

Lemma pad_row_idempotent (n : nat) (row : list string) :
  pad_row n (pad_row n row) = pad_row n row.
Proof.
  rewrite (pad_row_spec n (pad_row n row)), (pad_row_spec n row).
  rewrite length_app, length_replicate.
  replace (n - (length row + (n - length row)))%nat with 0%nat by lia.
  by rewrite app_nil_r.
Qed.

Lemma print_rows_padded (hs : list string) (cw : list Z) (colorize : bool)
    (type_col : option nat) (rows : list (list string)) :
  print_rows hs cw colorize type_col (map (pad_row (length hs)) rows)
  = print_rows hs cw colorize type_col rows.
Proof.
  unfold print_rows. generalize (Some (@nil string, @nil (list string))).
  induction rows as [|row rows IH]; intros acc; simpl; [done|].
  rewrite pad_row_idempotent. apply IH.
Qed.

(** X8: Rendering is idempotent on the table: a second call at the same
    terminal width prints the same lines and leaves the table as the first
    call left it. *)
Theorem render_twice (term_width : Z) (t t' : table)
    (stats : option (gmap string string)) (colorize : bool)
    (out : list string) :
  length (column_widths t) = length (headers t) →
  print_formatted_table term_width t stats colorize = Some (out, t') →
  print_formatted_table term_width t' stats colorize = Some (out, t').
Proof.
  intros Hlen Hprint.
  destruct (print_structure term_width t stats colorize Hlen)
    as (cw & hl & body & Hcw & Hcwl & Hhl & Hbody & Hp).
  rewrite Hp in Hprint. injection Hprint as <- <-.
  unfold print_formatted_table. simpl.
  rewrite (adjust_widths_idempotent _ _ _ _ Hcw). simpl.
  rewrite Hhl. simpl. rewrite print_rows_padded, Hbody. simpl.
  by rewrite <- !app_assoc.
Qed.

Lemma render_twice_witness :
  ∃ out t',
    print_formatted_table 40 example_table None true = Some (out, t')
    ∧ print_formatted_table 40 t' None true = Some (out, t').
Proof.
  destruct (print_structure 40 example_table None true eq_refl)
    as (cw & hl & body & _ & _ & _ & _ & Hp).
  eexists _, _. split; [exact Hp|].
  apply (render_twice 40 example_table _ None true _ eq_refl Hp).
Defined.

(** X9: Whatever the input lines and the column filter, the table the parser
    returns is rendered without an index error. *)
Theorem parsed_table_renders (lines : list string)
    (fc : option (list string)) (term_width : Z)
    (stats : option (gmap string string)) (colorize : bool) :
  ∃ out t',
    print_formatted_table term_width
      (Table (parse_mysql_table lines fc).1.1
             (parse_mysql_table lines fc).1.2
             (parse_mysql_table lines fc).2) stats colorize
    = Some (out, t').
Proof.
  destruct (print_structure term_width
              (Table (parse_mysql_table lines fc).1.1
                     (parse_mysql_table lines fc).1.2
                     (parse_mysql_table lines fc).2) stats colorize)
    as (cw & hl & body & _ & _ & _ & _ & Hp).
  - apply parse_widths_length.
  - by eexists _, _.
Qed.

(** *** Alignment *)

Lemma len_nonneg (s : string) : 0 ≤ Py.len s.
Proof. unfold Py.len. lia. Qed.

Lemma len_cons (c : ascii) (s : string) : Py.len (String c s) = 1 + Py.len s.
Proof. unfold Py.len. simpl. lia. Qed.

Lemma len_repeat_nat (s : string) (n : nat) :
  Py.len (Py.repeat_nat s n) = Py.len s * Z.of_nat n.
Proof.
  induction n as [|n IH]; simpl; [unfold Py.len; simpl; lia|].
  rewrite len_append, IH, Nat2Z.inj_succ. ring.
Qed.

Lemma len_mul (s : string) (n : Z) :
  Py.len (Py.mul s n) = Py.len s * Z.max n 0.
Proof. unfold Py.mul. rewrite len_repeat_nat. f_equal. lia. Qed.

Lemma len_cell_text (cell : string) (w : Z) :
  Py.len (cell_text cell (Py.len cell) w) = Z.max (Py.len cell) w + 3.
Proof.
  unfold cell_text, Py.ljust. rewrite !len_append, !len_mul.
  change (Py.len " ") with 1. change (Py.len "|") with 1. lia.
Qed.

Lemma separator_fold (cw : list Z) (acc : string) :
  foldl (fun sep width => sep +:+ Py.mul "-" (width + 2) +:+ "+") acc cw
  = acc +:+ concat_all (map (fun w => Py.mul "-" (w + 2) +:+ "+") cw).
Proof.
  revert acc; induction cw as [|w cw IH]; intros acc; simpl.
  - by rewrite append_nil_r.
  - rewrite IH. by rewrite (append_assoc acc).
Qed.

Lemma len_concat_all (l : list string) :
  Py.len (concat_all l) = foldr Z.add 0 (map Py.len l).
Proof.
  induction l as [|x l IH]; simpl; [done|]. by rewrite len_append, IH.
Qed.

Lemma len_separator (cw : list Z) :
  Forall (fun w => 0 ≤ w) cw →
  Py.len (separator cw) = 1 + foldr Z.add 0 (map (fun w => w + 3) cw).
Proof.
  intros Hcw. unfold separator. rewrite separator_fold, len_append.
  change (Py.len "+") with 1. f_equal. rewrite len_concat_all, map_map.
  induction Hcw as [|w cw Hw _ IH]; simpl; [done|].
  rewrite IH, len_append, len_mul. change (Py.len "-") with 1.
  change (Py.len "+") with 1. lia.
Qed.

Lemma len_plain_row (cw : list Z) (row : list string) :
  length row = length cw → row_fits cw row →
  Py.len (plain_row cw row) = 1 + foldr Z.add 0 (map (fun w => w + 3) cw).
Proof.
  intros Hlen Hfit. unfold plain_row. rewrite len_append.
  change (Py.len "|") with 1. f_equal. rewrite len_concat_all.
  revert cw Hlen Hfit; induction row as [|c row IH];
    intros [|w cw] Hlen Hfit; simpl in *; try done.
  rewrite len_cell_text.
  pose proof (Hfit 0%nat c w eq_refl eq_refl).
  rewrite IH; [lia|lia|].
  intros i c' w' Hc Hw. by apply (Hfit (S i)).
Qed.

Lemma zip_with_nil_r {A B C} (f : A → B → C) (l : list A) :
  zip_with f l [] = [].
Proof. by destruct l. Qed.

Lemma len_plain_row_wide (cw : list Z) (row : list string) :
  (length cw ≤ length row)%nat → row_fits cw row →
  Py.len (plain_row cw row) = 1 + foldr Z.add 0 (map (fun w => w + 3) cw).
Proof.
  intros Hlen Hfit. unfold plain_row. rewrite len_append.
  change (Py.len "|") with 1. f_equal. rewrite len_concat_all.
  revert cw Hlen Hfit; induction row as [|c row IH];
    intros [|w cw] Hlen Hfit; simpl in *; try done; try lia.
  rewrite len_cell_text.
  pose proof (Hfit 0%nat c w eq_refl eq_refl).
  rewrite IH; [lia|lia|].
  intros i c' w' Hc Hw. by apply (Hfit (S i)).
Qed.

Lemma normal_row_line_fold (hs : list string) (cw : list Z)
    (row : list string) (a : nat) (acc : string) :
  (length cw ≤ length hs)%nat →
  foldl (fun acc ic =>
           line ← acc;
           if bool_decide (ic.1 < length cw)%nat then
             header ← hs !! ic.1;
             width ← cw !! ic.1;
             let colored_cell := colorize_cell ic.2 header false in
             Some (line +:+ cell_text colored_cell (Py.len ic.2) width)
           else Some line)
        (Some acc) (zip (seq a (length row)) row)
  = Some (acc +:+ concat_all
                    (zip_with (fun cell w => cell_text cell (Py.len cell) w)
                              row (drop a cw))).
Proof.
  intros Hlen. revert a acc; induction row as [|c row IH]; intros a acc.
  - simpl. by rewrite append_nil_r.
  - simpl zip. simpl foldl. case_bool_decide as Ha.
    + destruct (lookup_lt_is_Some_2 hs a) as [h Hh]; [lia|].
      destruct (lookup_lt_is_Some_2 cw a) as [w Hw]; [lia|].
      rewrite Hh, Hw. simpl. rewrite IH.
      rewrite (drop_S cw w a Hw). simpl. by rewrite append_assoc.
    + rewrite IH. rewrite !drop_ge by lia.
      by rewrite !zip_with_nil_r.
Qed.

Lemma normal_row_line_plain (hs : list string) (cw : list Z)
    (row : list string) :
  (length cw ≤ length hs)%nat →
  normal_row_line hs cw false row = Some (plain_row cw row).
Proof.
  intros Hlen. exact (normal_row_line_fold hs cw row 0 "|" Hlen).
Qed.

Lemma header_line_fold (cw : list Z) (hs : list string) (a : nat)
    (acc : string) :
  (a + length hs ≤ length cw)%nat →
  foldl (fun acc ih =>
           line ← acc;
           width ← cw !! ih.1;
           let header_display :=
             if false then Colors.BOLD +:+ ih.2 +:+ Colors.RESET
             else ih.2 in
           Some (line +:+ cell_text header_display (Py.len ih.2) width))
        (Some acc) (zip (seq a (length hs)) hs)
  = Some (acc +:+ concat_all
                    (zip_with (fun cell w => cell_text cell (Py.len cell) w)
                              hs (drop a cw))).
Proof.
  revert a acc; induction hs as [|h hs IH]; intros a acc Hlen.
  - simpl. by rewrite append_nil_r.
  - simpl zip. simpl foldl. simpl in Hlen.
    destruct (lookup_lt_is_Some_2 cw a) as [w Hw]; [lia|].
    rewrite Hw. simpl. rewrite IH by lia.
    rewrite (drop_S cw w a Hw). simpl. by rewrite append_assoc.
Qed.

Lemma header_line_plain (hs : list string) (cw : list Z) :
  (length hs ≤ length cw)%nat →
  header_line hs cw false = Some (plain_row cw hs).
Proof.
  intros Hlen. exact (header_line_fold cw hs 0 "|" Hlen).
Qed.

Lemma row_enum_lines_none (type_col : option nat) (cw : list Z)
    (row : list string) :
  Forall (fun c => Py.contains "enum(" c = false) row →
  row_enum_lines type_col cw row = None.
Proof.
  intros Hrow. unfold row_enum_lines.
  destruct type_col as [t|]; simpl; [|done].
  destruct (row !! t) as [cell|] eqn:Hc; simpl; [|done].
  by rewrite (proj1 (Forall_lookup _ _) Hrow t cell Hc).
Qed.

Lemma pad_row_enum_free (n : nat) (row : list string) :
  Forall (fun c => Py.contains "enum(" c = false) row →
  Forall (fun c => Py.contains "enum(" c = false) (pad_row n row).
Proof.
  intros Hrow. rewrite pad_row_spec. apply Forall_app. split; [done|].
  by apply Forall_replicate.
Qed.

Lemma row_lines_plain (hs : list string) (cw : list Z)
    (type_col : option nat) (row : list string) :
  (length cw ≤ length hs)%nat →
  Forall (fun c => Py.contains "enum(" c = false) row →
  row_lines hs cw false type_col row = Some [plain_row cw row].
Proof.
  intros Hlen Hrow. unfold row_lines.
  rewrite row_enum_lines_none by done.
  by rewrite normal_row_line_plain.
Qed.

Lemma print_rows_plain_loop (hs : list string) (cw : list Z)
    (type_col : option nat) (rows : list (list string))
    (out : list string) (done_rows : list (list string)) :
  (length cw ≤ length hs)%nat → enum_free rows →
  foldl (fun acc row =>
           st ← acc;
           let row' := pad_row (length hs) row in
           ls ← row_lines hs cw false type_col row';
           Some (st.1 ++ ls, st.2 ++ [row']))
        (Some (out, done_rows)) rows
  = Some (out ++ map (fun row => plain_row cw (pad_row (length hs) row)) rows,
          done_rows ++ map (pad_row (length hs)) rows).
Proof.
  intros Hlen Hfree. revert out done_rows.
  induction Hfree as [|row rows Hrow _ IH]; intros out done_rows.
  - simpl. by rewrite !app_nil_r.
  - cbn [foldl mbind option_bind].
    rewrite row_lines_plain by (done || by apply pad_row_enum_free).
    cbn [mbind option_bind fst snd].
    rewrite IH. simpl. by rewrite <- !app_assoc.
Qed.

(** Without colour and without a cell that holds ["enum("], every row is
    printed on one line, and a line is as long as the border whenever the
    headers and the cells fit their columns. *)
Lemma plain_table_lines (term_width : Z) (t : table) :
  length (column_widths t) = length (headers t) →
  row_fits (column_widths t) (headers t) →
  Forall (row_fits (column_widths t)) (data t) →
  enum_free (data t) →
  ∃ cw, print_formatted_table term_width t None false
        = Some ([separator cw; plain_row cw (headers t); separator cw]
                  ++ map (fun row =>
                            plain_row cw (pad_row (length (headers t)) row))
                         (data t)
                  ++ [separator cw],
                Table (headers t)
                      (map (pad_row (length (headers t))) (data t)) cw)
        ∧ Forall (fun l => Py.len l = Py.len (separator cw))
            ([separator cw; plain_row cw (headers t); separator cw]
               ++ map (fun row =>
                         plain_row cw (pad_row (length (headers t)) row))
                      (data t)
               ++ [separator cw]).
Proof.
  intros Hlen Hhs Hrows Hfree.
  destruct (print_structure term_width t None false Hlen)
    as (cw & hl & body & Hcw & Hcwl & Hhl & Hbody & Hp).
  exists cw.
  rewrite header_line_plain in Hhl by lia. injection Hhl as <-.
  unfold print_rows in Hbody.
  rewrite (print_rows_plain_loop _ _ _ _ [] []) in Hbody by (done || lia).
  injection Hbody as <-. split; [exact Hp|].
  (* the adjusted widths are at least the original ones *)
  assert (∀ i w', cw !! i = Some w' →
                  ∃ w, column_widths t !! i = Some w ∧ w ≤ w') as Hmono.
  { unfold adjust_widths in Hcw.
    destruct (type_col_index (headers t)) as [k|].
    - destruct (column_widths t !! k) as [w|] eqn:Hw; simpl in Hcw; [|done].
      injection Hcw as <-. intros i w' Hi.
      destruct (decide (i = k)) as [->|Hne].
      + rewrite list_lookup_insert_eq in Hi by (by eapply lookup_lt_Some).
        injection Hi as <-. exists w. split; [done|lia].
      + rewrite list_lookup_insert_ne in Hi by done. exists w'. split; [done|lia].
    - injection Hcw as <-. intros i w' Hi. exists w'. split; [done|lia]. }
  assert (∀ row, row_fits (column_widths t) row → row_fits cw row) as Hfit.
  { intros row Hrow i c w' Hc Hw'. destruct (Hmono i w' Hw') as (w & Hw & Hle).
    pose proof (Hrow i c w Hc Hw). lia. }
  assert (Forall (fun w => 0 ≤ w) cw) as Hpos.
  { apply Forall_lookup. intros i w' Hw'.
    destruct (lookup_lt_is_Some_2 (headers t) i) as [h Hh].
    { rewrite <- Hcwl. by eapply lookup_lt_Some. }
    pose proof (Hfit _ Hhs i h w' Hh Hw'). pose proof (len_nonneg h). lia. }
  rewrite len_separator by done.
  assert (∀ row, (length cw ≤ length row)%nat → row_fits cw row →
                 Py.len (plain_row cw row)
                 = 1 + foldr Z.add 0 (map (λ w, w + 3) cw)) as Hline
    by (intros; by apply len_plain_row_wide).
  repeat apply Forall_cons_2; try (by rewrite len_separator).
  - apply Hline; [lia|by apply Hfit].
  - apply Forall_app. split; [|by apply Forall_singleton, len_separator].
    apply Forall_fmap. eapply Forall_impl; [exact Hrows|].
    intros row Hrow. simpl. apply Hline.
    + rewrite pad_row_spec, length_app, length_replicate. lia.
    + rewrite pad_row_spec. intros i c w' Hc Hw'.
      apply lookup_app_Some in Hc as [Hc|[_ Hc]].
      * by apply (Hfit row Hrow i c w').
      * apply lookup_replicate in Hc as [-> _].
        apply (proj1 (Forall_lookup _ _) Hpos i w' Hw').
Qed.

(** X10: A table whose headers and cells fit their columns and which has no
    cell with ["enum("] is printed, without colour and statistics, as four
    border and header lines plus one line for each row, all of the length
    of the border. *)
Theorem plain_table_aligned (term_width : Z) (t t' : table)
    (out : list string) :
  length (column_widths t) = length (headers t) →
  row_fits (column_widths t) (headers t) →
  Forall (row_fits (column_widths t)) (data t) →
  enum_free (data t) →
  print_formatted_table term_width t None false = Some (out, t') →
  length out = (length (data t) + 4)%nat
  ∧ Forall (fun l => Py.len l = Py.len (separator (column_widths t'))) out.
Proof.
  intros Hlen Hhs Hrows Hfree Hprint.
  destruct (plain_table_lines term_width t Hlen Hhs Hrows Hfree)
    as (cw & Hp & Hall).
  rewrite Hp in Hprint. injection Hprint as <- <-. split; [|exact Hall].
  simpl. rewrite length_app, length_map. simpl. lia.
Qed.

Lemma plain_table_aligned_witness :
  ∃ out t',
    print_formatted_table 30 example_table None false = Some (out, t')
    ∧ length out = 5%nat
    ∧ Forall (fun l => Py.len l = Py.len (separator (column_widths t'))) out.
Proof.
  destruct (print_structure 30 example_table None false eq_refl)
    as (cw & hl & body & _ & _ & _ & _ & Hp).
  eexists _, _. split; [exact Hp|].
  apply (plain_table_aligned 30 example_table _ _); try exact Hp.
  - reflexivity.
  - intros [|[|i]] c w [= <-] [= <-]; vm_compute; discriminate.
  - repeat constructor.
    intros [|[|i]] c w [= <-] [= <-]; vm_compute; discriminate.
  - repeat constructor.
Defined.

Lemma initial_widths_lookup (hs : list string) (rows : list (list string))
    (i : nat) (w : Z) :
  initial_widths hs rows !! i = Some w →
  ∃ h, hs !! i = Some h ∧ w = column_width i h rows.
Proof.
  rewrite initial_widths_map, list_lookup_fmap. intros Hw.
  destruct (Py.enumerate hs !! i) as [[j h]|] eqn:Hi; [|done].
  simpl in Hw. injection Hw as <-.
  unfold Py.enumerate in Hi. apply lookup_zip_Some in Hi as [Hj Hh].
  apply lookup_seq in Hj as [-> _]. by exists h.
Qed.

Lemma column_width_bounds (i : nat) (h : string) (rows : list (list string)) :
  Py.len h ≤ column_width i h rows
  ∧ ∀ row c, In row rows → row !! i = Some c →
             cell_width c ≤ column_width i h rows.
Proof.
  unfold column_width. rewrite column_width_fold.
  destruct (foldl_max_is_maximum
              (map cell_width (column_cells i rows)) (Py.len h)) as [_ Hub].
  split; [apply Hub; by left|].
  intros row c Hrow Hc. apply Hub. right. apply in_map.
  unfold column_cells. apply list_elem_of_In. apply list_elem_of_omap.
  exists row. split; [by apply list_elem_of_In|done].
Qed.

Lemma parse_fits (lines : list string) (fc : option (list string)) :
  enum_free (parse_mysql_table lines fc).1.2 →
  row_fits (parse_mysql_table lines fc).2 (parse_mysql_table lines fc).1.1
  ∧ Forall (row_fits (parse_mysql_table lines fc).2)
           (parse_mysql_table lines fc).1.2.
Proof.
  intros Hfree. rewrite parse_widths.
  set (hs := (parse_mysql_table lines fc).1.1) in *.
  set (rows := (parse_mysql_table lines fc).1.2) in *.
  split.
  - intros i c w Hc Hw.
    apply initial_widths_lookup in Hw as (h & Hh & ->).
    assert (h = c) as -> by congruence.
    apply column_width_bounds.
  - apply Forall_forall. intros row Hrow i c w Hc Hw.
    apply initial_widths_lookup in Hw as (h & Hh & ->).
    destruct (column_width_bounds i h rows) as [_ Hub].
    specialize (Hub row c (proj1 (list_elem_of_In _ _) Hrow) Hc).
    assert (Py.contains "enum(" c = false) as Hc'.
    { apply (proj1 (Forall_lookup _ _)
               (proj1 (Forall_forall _ _) Hfree row Hrow) i c Hc). }
    unfold cell_width in Hub. by rewrite Hc' in Hub.
Qed.

(** X11: End to end: input without a cell that holds ["enum("], parsed with any
    column filter and rendered at any terminal width without colour and
    statistics, gives one line for each row plus four, all of the same
    length. *)
Theorem parsed_plain_table_aligned (lines : list string)
    (fc : option (list string)) (term_width : Z) :
  enum_free (parse_mysql_table lines fc).1.2 →
  ∃ out t',
    print_formatted_table term_width
      (Table (parse_mysql_table lines fc).1.1
             (parse_mysql_table lines fc).1.2
             (parse_mysql_table lines fc).2) None false
    = Some (out, t')
    ∧ length out = (length (parse_mysql_table lines fc).1.2 + 4)%nat
    ∧ Forall (fun l => Py.len l = Py.len (separator (column_widths t'))) out.
Proof.
  intros Hfree. destruct (parse_fits lines fc Hfree) as [Hhs Hrows].
  destruct (plain_table_lines term_width
              (Table (parse_mysql_table lines fc).1.1
                     (parse_mysql_table lines fc).1.2
                     (parse_mysql_table lines fc).2))
    as (cw & Hp & Hall); try done.
  { apply parse_widths_length. }
  eexists _, _. split; [exact Hp|]. split; [|exact Hall].
  simpl. rewrite length_app, length_map. simpl. lia.
Qed.

Lemma parsed_plain_table_aligned_witness :
  ∃ out t',
    print_formatted_table 19
      (Table (parse_mysql_table example_lines None).1.1
             (parse_mysql_table example_lines None).1.2
             (parse_mysql_table example_lines None).2) None false
    = Some (out, t')
    ∧ length out = 5%nat
    ∧ Forall (fun l => Py.len l = Py.len (separator (column_widths t'))) out.
Proof.
  apply (parsed_plain_table_aligned example_lines None 19).
  repeat constructor.
Defined.

(** ** colorize_cell *)

(** X12: Colouring never alters the text of a cell: the result is the cell
    itself, or, with colours on, the cell between one escape prefix of the
    palette and the reset code. *)
Theorem colorize_keeps_text (cell header : string) (colorize : bool) :
  colorize_cell cell header colorize = cell
  ∨ (colorize = true
     ∧ ∃ codes, In codes palette
                ∧ colorize_cell cell header colorize
                  = codes +:+ cell +:+ Colors.RESET).
Proof.
  unfold colorize_cell, paint.
  destruct colorize; simpl negb; cbv iota; [|by left].
  repeat match goal with
         | |- context [if ?b then _ else _] => destruct b
         end;
    first [ by left
          | right; split; [done|]; eexists; split; [|reflexivity];
            unfold palette; simpl; tauto ].
Qed.

(** ** get_cache_key *)

Lemma join_merge (a b : string) (rest : list string) :
  join "_" ((a +:+ "_" +:+ b) :: rest) = join "_" (a :: b :: rest).
Proof.
  destruct rest as [|c rest]; [done|].
  rewrite !join_cons. by rewrite (append_assoc a), (append_assoc "_" b).
Qed.

(** X13: The cache key does not tell queries apart: no column filter, an empty
    one and the filter [all] share a key; so do a column named [a_b] and the
    two columns [a], [b]; so do database [d_x] with table [t] and database
    [d] with table [x_t]. *)
Theorem cache_key_collisions (database table format_type : string) :
  get_cache_key database table None format_type
  = get_cache_key database table (Some ["all"]) format_type
  ∧ get_cache_key database table (Some []) format_type
    = get_cache_key database table (Some ["all"]) format_type
  ∧ (∀ a b rest,
       get_cache_key database table (Some ((a +:+ "_" +:+ b) :: rest))
                     format_type
       = get_cache_key database table (Some (a :: b :: rest)) format_type)
  ∧ (∀ x columns,
       get_cache_key (database +:+ "_" +:+ x) table columns format_type
       = get_cache_key database (x +:+ "_" +:+ table) columns format_type).
Proof.
  unfold get_cache_key. split; [done|]. split; [done|]. split.
  - intros a b rest. simpl truthy. cbv iota. simpl default.
    by rewrite join_merge.
  - intros x columns.
    by rewrite !(append_assoc database), !(append_assoc x),
               !(append_assoc "_" x).
Qed.

(** ** export_json *)

Lemma row_dict_loop_absent (row : list string) (hs : list string) (a : nat)
    (d : gmap string string) (k : string) :
  ¬ In k hs →
  foldl (fun d ih => <[ih.2 := default EmptyString (row !! ih.1)]> d)
        d (zip (seq a (length hs)) hs) !! k
  = d !! k.
Proof.
  revert a d; induction hs as [|h hs IH]; intros a d Hk; simpl; [done|].
  rewrite IH by (intros H; apply Hk; by right).
  apply lookup_insert_ne. intros ->. apply Hk. by left.
Qed.

Lemma row_dict_loop_last (row : list string) (hs : list string) (a : nat)
    (d : gmap string string) (i : nat) (h : string) :
  hs !! i = Some h →
  (∀ j, (i < j)%nat → hs !! j ≠ Some h) →
  foldl (fun d ih => <[ih.2 := default EmptyString (row !! ih.1)]> d)
        d (zip (seq a (length hs)) hs) !! h
  = Some (default EmptyString (row !! (a + i)%nat)).
Proof.
  revert a d i; induction hs as [|x hs IH]; intros a d i Hi Hlast; [done|].
  simpl. destruct i as [|i]; simpl in Hi.
  - injection Hi as ->. rewrite row_dict_loop_absent.
    + rewrite lookup_insert_eq. by rewrite Nat.add_0_r.
    + intros Hin. apply list_elem_of_In, list_elem_of_lookup in Hin as [j Hj].
      by apply (Hlast (S j) ltac:(lia)).
  - rewrite (IH (S a) _ i Hi).
    + by replace (S a + i)%nat with (a + S i)%nat by lia.
    + intros j Hj. apply (Hlast (S j)). lia.
Qed.

(** X14: The exporter makes one dictionary for each row.  A header maps to the
    cell at its position, the last position if the name occurs twice, and
    to the empty string when the row is too short; a name that is no header
    is no key. *)
Theorem export_json_rows (hs : list string) (rows : list (list string)) :
  export_json_result hs rows = map (row_dict hs) rows
  ∧ ∀ row,
      (∀ i h, hs !! i = Some h → (∀ j, (i < j)%nat → hs !! j ≠ Some h) →
              row_dict hs row !! h = Some (default EmptyString (row !! i)))
      ∧ (∀ k, ¬ In k hs → row_dict hs row !! k = None).
Proof.
  split.
  - unfold export_json_result.
    rewrite (foldl_appending _ (fun row => [row_dict hs row])) by done.
    simpl. induction rows as [|r rows IH]; simpl; [done|by rewrite IH].
  - intros row. unfold row_dict, Py.enumerate. split.
    + intros i h Hi Hlast.
      by rewrite (row_dict_loop_last row hs 0 ∅ i h Hi Hlast).
    + intros k Hk. by rewrite row_dict_loop_absent.
Qed.

Lemma export_json_rows_witness :
  row_dict ["Field"; "Type"; "Field"] ["id"; "int"] !! "Field"
  = Some EmptyString
  ∧ row_dict ["Field"; "Type"; "Field"] ["id"; "int"] !! "Type" = Some "int"
  ∧ row_dict ["Field"; "Type"; "Field"] ["id"; "int"] !! "Key" = None.
Proof.
  destruct (export_json_rows ["Field"; "Type"; "Field"] [["id"; "int"]])
    as [_ Hrow].
  destruct (Hrow ["id"; "int"]) as [Hkey Hnone].
  split; [|split].
  - apply (Hkey 2%nat "Field" eq_refl).
    intros [|[|[|j]]] Hj; try lia; discriminate.
  - apply (Hkey 1%nat "Type" eq_refl).
    intros [|[|[|j]]] Hj; try lia; discriminate.
  - apply Hnone. intros [H|[H|[H|[]]]]; discriminate.
Defined.

(** ** The wrapper at the width the parser computes *)

Lemma findall_from_tail (open : option string) (s t : string) :
  quote_free t →
  Py.findall_from open (s +:+ t) = Py.findall_from open s.
Proof.
  intros Ht. revert open; induction s as [|c s IH]; intros open.
  - rewrite append_nil_l. simpl. destruct open as [m|].
    + by apply findall_unclosed.
    + rewrite <- (append_nil_r t). by rewrite findall_skip.
  - rewrite append_cons. simpl.
    destruct open as [m|]; destruct (Ascii.eqb c "'"); by rewrite IH.
Qed.

Lemma contains_prefix (p s : string) : Py.contains p (p +:+ s) = true.
Proof.
  assert (String.prefix p (p +:+ s) = true) as Hp.
  { induction p as [|c p IH].
    - rewrite append_nil_l. by destruct s.
    - rewrite append_cons. simpl. by destruct (ascii_dec c c). }
  assert (∀ t, Py.contains p t
               = String.prefix p t
                 || match t with
                    | EmptyString => false
                    | String _ t' => Py.contains p t'
                    end) as Hunfold by (by intros []).
  by rewrite Hunfold, Hp.
Qed.

Lemma max_default0_ge (l : list Z) (x : Z) :
  In x l → x ≤ Py.max_default0 l.
Proof.
  intros Hx. destruct l as [|y l]; [done|].
  by apply (foldl_max_is_maximum l y).
Qed.

(** For a cell that is exactly an enum declaration, the values the wrapper
    packs are the quoted strings the parser measures. *)
Lemma enum_cell_values (content : string) :
  one_line content →
  get_enum_values ("enum(" +:+ content +:+ ")") = Py.findall_quoted content
  ∧ Py.findall_quoted ("enum(" +:+ content +:+ ")")
    = Py.findall_quoted content
  ∧ Py.contains "enum(" ("enum(" +:+ content +:+ ")") = true.
Proof.
  intros Hone. split; [|split].
  - unfold get_enum_values.
    pose proof (search_enum_leftmost EmptyString content EmptyString Hone
                  eq_refl) as Hs.
    change (Py.search_enum ("enum(" +:+ content +:+ ")"))
      with (Py.search_enum
              (EmptyString +:+ "enum(" +:+ content +:+ ")" +:+ EmptyString)).
    rewrite Hs; [done|].
    intros pre' body' _ Hlt. simpl in Hlt. lia.
  - unfold Py.findall_quoted. rewrite findall_skip by done.
    by apply findall_from_tail.
  - apply contains_prefix.
Qed.

(** X15: A cell that is exactly an enum declaration wraps within the width the
    parser computes for it, or any larger one: every line but the last is at
    most as long as the width, and the last, which gets the close
    parenthesis, at most one character longer. *)
Theorem wrapped_enum_fits_parsed_width (content : string) (w : Z) :
  one_line content →
  Py.findall_quoted content ≠ [] →
  cell_width ("enum(" +:+ content +:+ ")") ≤ w →
  ∃ front last_line,
    format_enum ("enum(" +:+ content +:+ ")") w = front ++ [last_line]
    ∧ Forall (fun l => Py.len l ≤ w) front
    ∧ Py.len last_line ≤ w + 1.
Proof.
  intros Hone Hne Hw.
  destruct (enum_cell_values content Hone) as (Hvals & Hall & Hin).
  unfold cell_width in Hw. rewrite Hin, Hall in Hw.
  change (Py.len "enum(") with 5 in Hw.
  set (vals := Py.findall_quoted content) in *.
  assert (∀ v, In v vals → Py.len v + 6 ≤ w) as Hv.
  { intros v Hv.
    pose proof (max_default0_ge (map Py.len vals) (Py.len v)
                  (in_map Py.len _ _ Hv)). lia. }
  assert (∀ l, fits vals w l → Py.len l ≤ w) as Hfit.
  { intros l [Hl|[i ->]]; [done|]. unfold packed_value.
    assert (Py.len (default EmptyString (vals !! i)) + 6 ≤ w) as Hd.
    { destruct (vals !! i) as [v|] eqn:Hi; simpl.
      - apply Hv. apply list_elem_of_In. by eapply list_elem_of_lookup_2.
      - destruct vals as [|v vals']; [done|].
        pose proof (Hv v ltac:(by left)). pose proof (len_nonneg v).
        change (Py.len EmptyString) with 0. lia. }
    case_bool_decide; rewrite ?len_append; change (Py.len ",") with 1; lia. }
  destruct vals as [|v0 [|v1 vs]] eqn:Evals; [done| |].
  - exists [], ("enum(" +:+ v0 +:+ ")"). split.
    + by apply wrap_single.
    + split; [done|]. rewrite !len_append.
      change (Py.len "enum(") with 5. change (Py.len ")") with 1.
      pose proof (Hv v0 ltac:(by left)). lia.
  - destruct (wrap_core _ w v0 v1 vs Hvals)
      as (inner & body & Hf & Hinner & Hbody & _).
    exists (("enum(" +:+ v0 +:+ ",") :: inner), (body +:+ ")").
    split; [exact Hf|]. split.
    + apply Forall_cons. split.
      * rewrite !len_append. change (Py.len "enum(") with 5.
        change (Py.len ",") with 1. pose proof (Hv v0 ltac:(by left)). lia.
      * eapply Forall_impl; [exact Hinner|]. exact Hfit.
    + rewrite len_append. change (Py.len ")") with 1.
      pose proof (Hfit body Hbody). lia.
Qed.

Lemma wrapped_enum_fits_parsed_width_witness :
  ∃ front last_line,
    format_enum ("enum(" +:+ "'on','standby','off'" +:+ ")") 15
    = front ++ [last_line]
    ∧ Forall (fun l => Py.len l ≤ 15) front
    ∧ Py.len last_line ≤ 15 + 1.
Proof.
  apply (wrapped_enum_fits_parsed_width "'on','standby','off'" 15).
  - reflexivity.
  - discriminate.
  - vm_compute. discriminate.
Defined.

(** ** The number of printed lines *)

Lemma collect_lines_length {A} (g : A → option string) (l : list A)
    (o r : list string) :
  foldl (fun acc x => out ← acc; line ← g x; Some (out ++ [line]))
        (Some o) l = Some r →
  length r = (length o + length l)%nat.
Proof.
  revert o; induction l as [|x l IH]; intros o; simpl.
  - intros [= <-]. lia.
  - destruct (g x) as [line|]; simpl.
    + intros H. apply IH in H. rewrite length_app in H. simpl in H. lia.
    + intros H. exfalso. clear -H. induction l as [|y l IHl]; [done|].
      by apply IHl.
Qed.

Lemma row_lines_length (hs : list string) (cw : list Z) (colorize : bool)
    (type_col : option nat) (row ls : list string) :
  row_lines hs cw colorize type_col row = Some ls →
  length ls = row_line_count type_col cw row.
Proof.
  unfold row_lines, row_line_count.
  destruct (row_enum_lines type_col cw row) as [[enum_col wrapped]|].
  - intros H.
    apply (collect_lines_length
             (fun je => enum_row_line hs cw colorize row enum_col
                          (length wrapped) je.1 je.2)) in H.
    rewrite H, enumerate_length. done.
  - destruct (normal_row_line hs cw colorize row); [|done].
    by intros [= <-].
Qed.

Lemma print_rows_length (hs : list string) (cw : list Z) (colorize : bool)
    (type_col : option nat) (rows : list (list string))
    (out : list string) (done_rows : list (list string))
    (out' : list string) (rows' : list (list string)) :
  foldl (fun acc row =>
           st ← acc;
           let row' := pad_row (length hs) row in
           ls ← row_lines hs cw colorize type_col row';
           Some (st.1 ++ ls, st.2 ++ [row']))
        (Some (out, done_rows)) rows = Some (out', rows') →
  length out'
  = (length out
     + sum_list (map (fun row =>
                        row_line_count type_col cw (pad_row (length hs) row))
                     rows))%nat.
Proof.
  revert out done_rows; induction rows as [|row rows IH];
    intros out done_rows; simpl.
  - intros [= <- _]. lia.
  - destruct (row_lines hs cw colorize type_col (pad_row (length hs) row))
      as [ls|] eqn:Hls; simpl.
    + intros H. apply IH in H. rewrite length_app in H.
      apply row_lines_length in Hls. lia.
    + intros H. exfalso. clear -H. induction rows as [|y l IHl]; [done|].
      by apply IHl.
Qed.

Lemma stats_block_length (stats : option (gmap string string))
    (colorize : bool) :
  length (stats_block stats colorize)
  = match stats with
    | Some m => if bool_decide (m = ∅) then 0%nat else 5%nat
    | None => 0%nat
    end.
Proof.
  unfold stats_block. destruct stats as [m|]; [|done].
  case_bool_decide; [done|]. by destruct colorize.
Qed.

(** X16: The renderer prints the statistics block (five lines when there are
    statistics, none otherwise), three border lines, the header line, and
    for each row one line, or as many lines as its enum cell is wrapped
    into. *)
Theorem rendered_line_count (term_width : Z) (t t' : table)
    (stats : option (gmap string string)) (colorize : bool)
    (out : list string) :
  length (column_widths t) = length (headers t) →
  print_formatted_table term_width t stats colorize = Some (out, t') →
  length out
  = (match stats with
     | Some m => if bool_decide (m = ∅) then 0 else 5
     | None => 0
     end
     + 4
     + sum_list (map (row_line_count (type_col_index (headers t))
                                     (column_widths t'))
                     (data t')))%nat.
Proof.
  intros Hlen Hprint.
  destruct (print_structure term_width t stats colorize Hlen)
    as (cw & hl & body & _ & _ & _ & Hbody & Hp).
  rewrite Hp in Hprint. injection Hprint as <- <-.
  unfold print_rows in Hbody. apply print_rows_length in Hbody.
  rewrite !length_app, stats_block_length. simpl length. rewrite length_app.
  rewrite Hbody. simpl. rewrite map_map. lia.
Qed.

Lemma rendered_line_count_witness :
  ∃ out t',
    print_formatted_table 30
      (Table ["Field"; "Type"]
             [["state";
               "enum('waiting','running','finished','failed','cancelled')"]]
             [5; 17])
      None false = Some (out, t')
    ∧ length out = 9%nat.
Proof.
  eexists _, _. split; [vm_compute; reflexivity|].
  etrans.
  - apply (rendered_line_count 30
             (Table ["Field"; "Type"]
                [["state";
                  "enum('waiting','running','finished','failed','cancelled')"]]
                [5; 17])
             (Table ["Field"; "Type"]
                [["state";
                  "enum('waiting','running','finished','failed','cancelled')"]]
                [5; 18]) None false _ eq_refl).
    vm_compute. reflexivity.
  - vm_compute. reflexivity.
Defined.

(** ** Rendering, then parsing again *)

Lemma all_spaces_append (a b : string) :
  all_spaces (a +:+ b) = all_spaces a && all_spaces b.
Proof.
  induction a as [|c a IH]; [done|].
  rewrite append_cons. simpl. by rewrite IH, andb_assoc.
Qed.

Lemma all_spaces_mul (n : Z) : all_spaces (Py.mul " " n) = true.
Proof.
  unfold Py.mul. induction (Z.to_nat n) as [|k IH]; [done|].
  simpl Py.repeat_nat. by rewrite all_spaces_append, IH.
Qed.

Lemma lstrip_spaces (sp x : string) :
  all_spaces sp = true → Py.lstrip (sp +:+ x) = Py.lstrip x.
Proof.
  induction sp as [|c sp IH]; [done|]. rewrite append_cons. simpl.
  intros H. apply andb_prop in H as [-> H]. by apply IH.
Qed.

Lemma lstrip_all_spaces (sp : string) :
  all_spaces sp = true → Py.lstrip sp = EmptyString.
Proof.
  induction sp as [|c sp IH]; [done|]. simpl.
  intros H. apply andb_prop in H as [-> H]. by apply IH.
Qed.

Lemma rstrip_all_spaces (sp : string) :
  all_spaces sp = true → Py.rstrip sp = EmptyString.
Proof.
  induction sp as [|c sp IH]; [done|]. simpl.
  intros H. apply andb_prop in H as [Hc H]. by rewrite IH, Hc.
Qed.

Lemma rstrip_spaces (x sp : string) :
  all_spaces sp = true → Py.rstrip (x +:+ sp) = Py.rstrip x.
Proof.
  intros Hsp. induction x as [|c x IH].
  - rewrite append_nil_l. by apply rstrip_all_spaces.
  - rewrite append_cons. simpl. by rewrite IH.
Qed.

Lemma clean_cases (c : string) :
  Py.strip c = c →
  c = EmptyString
  ∨ ∃ x r, c = String x r ∧ Py.isspace x = false ∧ Py.rstrip c = c.
Proof.
  unfold Py.strip. intros Hc.
  destruct (lstrip_head c) as [Hl|(x & r & Hl & Hx)].
  - rewrite Hl in Hc. by left.
  - rewrite Hl in Hc. destruct (rstrip_keeps_head x r Hx) as [r' Hr].
    right. exists x, r'. rewrite Hr in Hc. split; [done|]. split; [done|].
    rewrite <- Hc at 1. rewrite <- Hr. rewrite rstrip_idempotent. congruence.
Qed.

(** Stripping the padded text of a clean cell gives the cell back. *)
Lemma strip_field_text (cell : string) (w : Z) :
  Py.strip cell = cell → Py.strip (field_text cell w) = cell.
Proof.
  intros Hc. unfold field_text, Py.ljust.
  replace (Py.len cell - Py.len cell) with 0 by lia.
  change (Py.mul " " 0) with EmptyString. rewrite append_nil_r.
  unfold Py.strip. rewrite (lstrip_spaces " ") by done.
  assert (all_spaces (" " +:+ Py.mul " " (w - Py.len cell)) = true) as Hsp.
  { by rewrite all_spaces_append, all_spaces_mul. }
  destruct (clean_cases cell Hc) as [->|(x & r & -> & Hx & Hr)].
  - rewrite append_nil_l, lstrip_all_spaces by done. done.
  - rewrite append_cons. simpl Py.lstrip. rewrite Hx.
    rewrite <- append_cons. by rewrite rstrip_spaces.
Qed.

Lemma cell_text_field (cell : string) (w : Z) :
  cell_text cell (Py.len cell) w = field_text cell w +:+ "|".
Proof.
  unfold cell_text, field_text.
  by rewrite (append_assoc " "), (append_assoc (Py.ljust _ _)),
             (append_assoc " ").
Qed.

Lemma has_char_repeat (c x : ascii) (n : nat) :
  Ascii.eqb x c = false →
  has_char c (Py.repeat_nat (String x EmptyString) n) = false.
Proof.
  intros Hx. induction n as [|n IH]; [done|].
  simpl Py.repeat_nat. rewrite append_cons, append_nil_l. simpl.
  by rewrite Hx, IH.
Qed.

Lemma field_text_bar_free (cell : string) (w : Z) :
  has_char "|" cell = false → has_char "|" (field_text cell w) = false.
Proof.
  intros Hc. unfold field_text, Py.ljust, Py.mul.
  rewrite !has_char_append, Hc, !has_char_repeat by done. done.
Qed.

Lemma split_field (sep : ascii) (field rest : string) :
  has_char sep field = false →
  Py.split sep (field +:+ String sep rest) = field :: Py.split sep rest.
Proof.
  induction field as [|c f IH]; intros Hf.
  - rewrite append_nil_l. simpl. by rewrite Ascii.eqb_refl.
  - rewrite append_cons. simpl in *.
    apply orb_false_elim in Hf as [Hc Hf]. rewrite Hc, (IH Hf). done.
Qed.

(** Splitting a printed row on the bar gives an empty field, the padded
    cells, and an empty field. *)
Lemma split_row_text (cw : list Z) (row : list string) :
  Forall clean_cell row →
  Py.split "|"
    (concat_all (zip_with (fun cell w => cell_text cell (Py.len cell) w)
                          row cw))
  = zip_with field_text row cw ++ [EmptyString].
Proof.
  intros Hrow. revert cw; induction Hrow as [|c row [_ Hc] _ IH];
    intros [|w cw]; try done.
  change (Py.split "|"
            (cell_text c (Py.len c) w
             +:+ concat_all
                   (zip_with (fun cell w => cell_text cell (Py.len cell) w)
                             row cw))
          = field_text c w :: zip_with field_text row cw ++ [EmptyString]).
  rewrite cell_text_field, append_assoc.
  change ("|" +:+ ?r) with (String "|" r).
  rewrite split_field by (by apply field_text_bar_free).
  by rewrite IH.
Qed.

Lemma pipe_cells_plain_row (cw : list Z) (row : list string) :
  Forall clean_cell row →
  pipe_cells (plain_row cw row) = take (length cw) row.
Proof.
  intros Hrow. unfold pipe_cells, plain_row, Py.slice_1_m1.
  change ("|" +:+ ?r) with (String "|" r). simpl Py.split.
  rewrite split_row_text by done. simpl tail.
  rewrite removelast_last.
  revert cw; induction Hrow as [|c row [Hs _] _ IH]; intros [|w cw];
    try done.
  change (Py.strip (field_text c w)
          :: map Py.strip (zip_with field_text row cw)
          = c :: take (length cw) row).
  by rewrite strip_field_text, IH.
Qed.

Lemma prefix_char (c x : ascii) (s : string) :
  String.prefix (String c EmptyString) (String x s) = Ascii.eqb x c.
Proof.
  simpl. destruct (ascii_dec c x) as [->|Hne].
  - rewrite Ascii.eqb_refl. by destruct s.
  - symmetry. apply Ascii.eqb_neq. congruence.
Qed.

Lemma contains_char (c : ascii) (s : string) :
  Py.contains (String c EmptyString) s = has_char c s.
Proof.
  induction s as [|x s IH]; [done|].
  change (Py.contains (String c EmptyString) (String x s))
    with (String.prefix (String c EmptyString) (String x s)
          || Py.contains (String c EmptyString) s).
  by rewrite prefix_char, IH.
Qed.

Lemma separator_text (cw : list Z) :
  separator cw
  = String "+" (concat_all (map (fun w => Py.mul "-" (w + 2) +:+ "+") cw)).
Proof. unfold separator. by rewrite separator_fold. Qed.

Lemma has_char_cons (c x : ascii) (s : string) :
  has_char c (String x s) = Ascii.eqb x c || has_char c s.
Proof. reflexivity. Qed.

Lemma separator_chars (c : ascii) (cw : list Z) :
  Ascii.eqb "+" c = false → Ascii.eqb "-" c = false →
  has_char c (separator cw) = false.
Proof.
  intros Hplus Hminus. rewrite separator_text, has_char_cons, Hplus.
  rewrite orb_false_l.
  induction cw as [|w cw IH]; [done|].
  change (concat_all (map ?f (w :: cw)))
    with (f w +:+ concat_all (map f cw)).
  rewrite !has_char_append, IH. unfold Py.mul.
  rewrite has_char_repeat by done.
  by rewrite has_char_cons, Hplus.
Qed.

Lemma separator_is_border (w : Z) (cw : list Z) :
  0 ≤ w → Py.startswith (separator (w :: cw)) "+--" = true.
Proof.
  intros Hw. rewrite separator_text.
  change (concat_all (map ?f (w :: cw)))
    with (f w +:+ concat_all (map f cw)).
  unfold Py.mul.
  destruct (Z.to_nat (w + 2)) as [|[|k]] eqn:E; [lia|lia|].
  by destruct k.
Qed.

Lemma separator_not_header (cw : list Z) :
  Py.startswith (separator cw) "| Field" = false.
Proof. by rewrite separator_text. Qed.

Lemma plain_row_is_data (cw : list Z) (row : list string) :
  data_line (plain_row cw row) = true.
Proof.
  unfold data_line, plain_row. change ("|" +:+ ?r) with (String "|" r).
  simpl Py.startswith. unfold Py.strip. simpl Py.lstrip.
  destruct (rstrip_keeps_head "|" (concat_all
              (zip_with (fun cell w => cell_text cell (Py.len cell) w)
                        row cw)) eq_refl) as [r ->].
  by rewrite bool_decide_eq_false_2.
Qed.

Lemma prefix_append (p a b : string) :
  String.prefix p a = true → String.prefix p (a +:+ b) = true.
Proof.
  revert a; induction p as [|c p IH]; intros a; [by destruct (a +:+ b)|].
  destruct a as [|x a]; [done|]. rewrite append_cons. simpl.
  destruct (ascii_dec c x); [apply IH|done].
Qed.

Lemma plain_header_found (w : Z) (cw : list Z) (h : string)
    (hs : list string) :
  Py.startswith h "Field" = true →
  Py.startswith (plain_row (w :: cw) (h :: hs)) "| Field" = true.
Proof.
  intros Hh. unfold Py.startswith, plain_row in *.
  change (zip_with ?f (h :: hs) (w :: cw)) with (f h w :: zip_with f hs cw).
  change (concat_all (?x :: ?l)) with (x +:+ concat_all l).
  unfold cell_text, Py.ljust.
  change ("|" +:+ (" " +:+ ?a) +:+ ?b) with (String "|" (String " " (a +:+ b))).
  simpl String.prefix.
  rewrite !append_assoc. by apply prefix_append.
Qed.

Lemma filter_all {A} (f : A → bool) (l : list A) :
  Forall (fun x => f x = true) l → List.filter f l = l.
Proof.
  induction 1 as [|x l Hx _ IH]; simpl; [done|]. by rewrite Hx, IH.
Qed.

Lemma adjust_widths_grows (term_width : Z) (type_col : option nat)
    (cw cw' : list Z) :
  adjust_widths term_width type_col cw = Some cw' →
  Forall (fun w => 0 ≤ w) cw → Forall (fun w => 0 ≤ w) cw'.
Proof.
  unfold adjust_widths. destruct type_col as [k|]; [|by intros [= <-]].
  destruct (cw !! k) as [w|] eqn:Hw; simpl; [|done]. intros [= <-] Hpos.
  apply Forall_insert; [done|].
  pose proof (proj1 (Forall_lookup _ _) Hpos k w Hw).
  etrans; [|apply Z.le_max_l]. done.
Qed.

(** The lines printed for a table without colour, statistics and wrapped
    cells. *)
Lemma plain_table_output (term_width : Z) (t : table) :
  length (column_widths t) = length (headers t) →
  enum_free (data t) →
  ∃ cw, adjust_widths term_width (type_col_index (headers t))
                      (column_widths t) = Some cw
        ∧ length cw = length (headers t)
        ∧ print_formatted_table term_width t None false
          = Some ([separator cw; plain_row cw (headers t); separator cw]
                    ++ map (fun row =>
                              plain_row cw (pad_row (length (headers t)) row))
                           (data t)
                    ++ [separator cw],
                  Table (headers t)
                        (map (pad_row (length (headers t))) (data t)) cw).
Proof.
  intros Hlen Hfree.
  destruct (print_structure term_width t None false Hlen)
    as (cw & hl & body & Hcw & Hcwl & Hhl & Hbody & Hp).
  exists cw. split; [done|]. split; [done|].
  rewrite header_line_plain in Hhl by lia. injection Hhl as <-.
  unfold print_rows in Hbody.
  rewrite (print_rows_plain_loop _ _ _ _ [] []) in Hbody by (done || lia).
  by injection Hbody as <-.
Qed.

Lemma printed_lines_parse_back (term_width : Z) (t t' : table)
    (out : list string) :
  length (column_widths t) = length (headers t) →
  Forall (fun w => 0 ≤ w) (column_widths t) →
  (∃ h, head (headers t) = Some h ∧ Py.startswith h "Field" = true) →
  Forall clean_cell (headers t) →
  Forall (Forall clean_cell) (data t) →
  enum_free (data t) →
  print_formatted_table term_width t None false = Some (out, t') →
  (parse_mysql_table out None).1
  = (headers t,
     map (fun row => take (length (headers t))
                          (pad_row (length (headers t)) row)) (data t)).
Proof.
  intros Hlen Hpos (h & Hh & Hfield) Hhs Hrows Hfree Hprint.
  destruct (plain_table_output term_width t Hlen Hfree)
    as (cw & Hcw & Hcwl & Hp).
  rewrite Hp in Hprint. injection Hprint as <- _.
  pose proof (adjust_widths_grows _ _ _ _ Hcw Hpos) as Hpos'.
  destruct (headers t) as [|h0 hs] eqn:Ehs; [done|]. injection Hh as ->.
  destruct cw as [|w cw]; [done|].
  apply Forall_cons in Hpos' as [Hw _].
  set (n := length (h :: hs)) in *.
  unfold parse_mysql_table, read_table. cbn [app].
  unfold TAB. rewrite contains_char, separator_chars by done.
  unfold find_header_line. cbn [find_header_from].
  rewrite separator_not_header, plain_header_found by done.
  cbn [lookup list_lookup default]. unfold apply_filter. cbn [truthy fst snd].
  unfold id. f_equal.
  - rewrite pipe_cells_plain_row by done. rewrite Hcwl.
    apply firstn_all.
  - rewrite pipe_data_rows.
    change (drop (1 + 2) (?a :: ?b :: ?c :: ?r)) with r.
    rewrite List.filter_app. cbn [List.filter].
    unfold data_line at 2. rewrite separator_is_border by done.
    cbn [negb andb]. rewrite app_nil_r.
    rewrite filter_all.
    2:{ apply Forall_fmap, Forall_true. intros row. apply plain_row_is_data. }
    rewrite map_map. apply map_ext_in. intros row Hrow.
    rewrite pipe_cells_plain_row.
    + by rewrite Hcwl.
    + rewrite pad_row_spec. apply Forall_app. split.
      * apply (proj1 (Forall_forall _ _) Hrows). by apply list_elem_of_In.
      * apply Forall_replicate. split; done.
Qed.

(** X17: Rendering without colour and parsing the printed lines again gives the
    headers back, and every row padded with empty cells or cut to the
    number of headers, provided the first header starts with [Field], the
    headers and cells are free of surrounding white space and of bars, and
    no cell is wrapped. *)
Theorem render_then_parse (term_width : Z) (t t' : table)
    (out : list string) :
  length (column_widths t) = length (headers t) →
  Forall (fun w => 0 ≤ w) (column_widths t) →
  (∃ h, head (headers t) = Some h ∧ Py.startswith h "Field" = true) →
  Forall clean_cell (headers t) →
  Forall (Forall clean_cell) (data t) →
  enum_free (data t) →
  print_formatted_table term_width t None false = Some (out, t') →
  (parse_mysql_table out None).1
  = (headers t,
     map (fun row => take (length (headers t))
                          (pad_row (length (headers t)) row)) (data t)).
Proof. apply printed_lines_parse_back. Qed.

Lemma render_then_parse_witness :
  ∃ out t',
    print_formatted_table 40
      (Table ["Field"; "Type"; "Null"]
             [["id"; "int(11)"; "NO"]; ["name"]] [5; 7; 4]) None false
    = Some (out, t')
    ∧ (parse_mysql_table out None).1
      = (["Field"; "Type"; "Null"],
         [["id"; "int(11)"; "NO"]; ["name"; EmptyString; EmptyString]]).
Proof.
  eexists _, _. split; [vm_compute; reflexivity|].
  apply (render_then_parse 40
           (Table ["Field"; "Type"; "Null"]
                  [["id"; "int(11)"; "NO"]; ["name"]] [5; 7; 4])
           (Table ["Field"; "Type"; "Null"]
                  [["id"; "int(11)"; "NO"];
                   ["name"; EmptyString; EmptyString]] [5; 21; 4])).
  - reflexivity.
  - repeat constructor; discriminate.
  - by exists "Field".
  - repeat constructor.
  - repeat constructor.
  - repeat constructor.
  - vm_compute. reflexivity.
Defined.

Lemma rstrip_keeps_nonspace (c : ascii) (s : string) :
  Py.isspace c = false → Py.rstrip (String c s) = String c (Py.rstrip s).
Proof. intros Hc. simpl. destruct (Py.rstrip s); by rewrite ?Hc. Qed.

Lemma split_head_prefix (sep : ascii) (p s : string) :
  has_char sep p = false →
  ∃ f fs, Py.split sep (p +:+ s) = (p +:+ f) :: fs.
Proof.
  induction p as [|c p IH]; intros Hp.
  - rewrite append_nil_l. destruct (Py.split sep s) as [|f fs] eqn:E.
    + destruct s; simpl in E; [done|]. destruct (Ascii.eqb a sep); [done|].
      by destruct (Py.split sep s).
    + by exists f, fs.
  - rewrite append_cons. simpl in *.
    apply orb_false_elim in Hp as [Hc Hp]. rewrite Hc.
    destruct (IH Hp) as (f & fs & ->). by exists f, fs.
Qed.

(** The first header of the pipe format starts with [Field]. *)
Lemma first_header_is_field (line : string) (h : string) :
  Py.startswith line "| Field" = true →
  head (pipe_cells line) = Some h →
  Py.startswith h "Field" = true.
Proof.
  intros Hline Hh. unfold Py.startswith in Hline.
  assert (∃ r, line = String "|" (" Field" +:+ r)) as [r ->].
  { destruct line as [|c1 [|c2 [|c3 [|c4 [|c5 [|c6 [|c7 r]]]]]]];
      simpl in Hline; try done;
      repeat match type of Hline with
             | (if ?d then _ else _) = true => destruct d as [<-|]; [|done]
             end; try done.
    by exists r. }
  unfold pipe_cells, Py.slice_1_m1 in Hh.
  change (Py.split "|" (String "|" (" Field" +:+ r)))
    with (EmptyString :: Py.split "|" (" Field" +:+ r)) in Hh.
  destruct (split_head_prefix "|" " Field" r eq_refl) as (f & fs & Hs).
  rewrite Hs in Hh. destruct fs as [|f' fs]; [done|].
  simpl in Hh. injection Hh as <-.
  unfold Py.strip. change (" Field" +:+ f) with (String " " ("Field" +:+ f)).
  simpl Py.lstrip.
  change (String "F" ("ield" +:+ f))
    with (String "F" (String "i" (String "e" (String "l" (String "d" f))))).
  rewrite !rstrip_keeps_nonspace by done.
  unfold Py.startswith. simpl. by destruct (Py.rstrip f).
Qed.

(** X18: What the parser reads in the pipe format survives rendering without
    colour and parsing again: the same headers, and the same rows padded or
    cut to the number of headers, when no cell holds ["enum("]. *)
Theorem parse_render_parse (lines : list string) (term_width : Z)
    (out : list string) (t' : table) :
  (∀ first, head lines = Some first → Py.contains TAB first = false) →
  (parse_mysql_table lines None).1.1 ≠ [] →
  enum_free (parse_mysql_table lines None).1.2 →
  print_formatted_table term_width
    (Table (parse_mysql_table lines None).1.1
           (parse_mysql_table lines None).1.2
           (parse_mysql_table lines None).2) None false
  = Some (out, t') →
  (parse_mysql_table out None).1
  = ((parse_mysql_table lines None).1.1,
     map (fun row =>
            take (length (parse_mysql_table lines None).1.1)
                 (pad_row (length (parse_mysql_table lines None).1.1) row))
         (parse_mysql_table lines None).1.2).
Proof.
  intros Htab Hne Hfree Hprint.
  destruct (parsed_cells_clean lines None Htab) as [Hhs Hrows].
  apply (printed_lines_parse_back term_width
           (Table (parse_mysql_table lines None).1.1
                  (parse_mysql_table lines None).1.2
                  (parse_mysql_table lines None).2) t' out); simpl; try done.
  - apply parse_widths_length.
  - rewrite parse_widths. apply Forall_lookup. intros i w Hw.
    apply initial_widths_lookup in Hw as (h & _ & ->).
    pose proof (proj1 (column_width_bounds i h
                         (parse_mysql_table lines None).1.2)).
    pose proof (len_nonneg h). lia.
  - clear Hprint Hfree Hhs Hrows.
    unfold parse_mysql_table, read_table in *.
    destruct lines as [|first rest]; [done|].
    rewrite (Htab first eq_refl) in *.
    destruct (find_header_line (first :: rest)) as [k|] eqn:Hk; [|done].
    simpl in *.
    destruct (pipe_cells (default EmptyString ((first :: rest) !! k)))
      as [|h hs] eqn:Ecells; [done|].
    exists h. split; [done|].
    apply (first_header_is_field
             (default EmptyString ((first :: rest) !! k))).
    + apply find_header_from_spec in Hk as (j & l & Hj & Hl & Hs & _).
      simpl in Hj. subst j. by rewrite Hl.
    + by rewrite Ecells.
Qed.

Lemma parse_render_parse_witness :
  ∃ out t',
    print_formatted_table 25
      (Table (parse_mysql_table example_lines None).1.1
             (parse_mysql_table example_lines None).1.2
             (parse_mysql_table example_lines None).2) None false
    = Some (out, t')
    ∧ (parse_mysql_table out None).1
      = (["Field"; "Type"], [["id"; "int(11)"]]).
Proof.
  eexists _, _. split; [vm_compute; reflexivity|].
  apply (parse_render_parse example_lines 25 _
           (Table ["Field"; "Type"] [["id"; "int(11)"]] [5; 13])).
  - intros first [= <-]. reflexivity.
  - discriminate.
  - repeat constructor.
  - vm_compute. reflexivity.
Defined.

